(** * Loom: a client wrapper around an OpenAI-compatible inference server

    Shallow embedding of [src/loom/client.py] ([LoomResponse], [LoomClient],
    [generate], [generate_structured]) together with the properties that the
    specification states about it.

    Python values are modelled as follows.
    - [str] is a sequence of Unicode code points ([pystr]).
    - [float] is an IEEE-754 binary64 number (Rocq's primitive [float]).
    - [int] is an unbounded integer ([Z]).
    - exceptions are the constructors of [Exn]; a call either returns a value
      or raises ([Result]).
    - the interpreter state a call can touch is explicit ([State]): the client
      object [self], the requests handed to the transport and the lines
      printed. *)

From Stdlib Require Import ZArith NArith List Bool String Ascii Floats Lia.
From Stdlib Require Import DecimalString.
Import ListNotations.

(** ** Python strings *)

Definition pystr := list N.

(** A string literal of the source, as code points (ASCII literals only). *)
Definition lit (s : string) : pystr :=
  List.map N_of_ascii (list_ascii_of_string s).

Definition pystr_eqb (a b : pystr) : bool :=
  if list_eq_dec N.eq_dec a b then true else false.

(** [Py_UNICODE_ISSPACE]: the characters [str.strip()] removes. *)
Definition isspace (c : N) : bool :=
  (((0x09 <=? c) && (c <=? 0x0D)) || ((0x1C <=? c) && (c <=? 0x20))
   || (c =? 0x85) || (c =? 0xA0) || (c =? 0x1680)
   || ((0x2000 <=? c) && (c <=? 0x200A))
   || (c =? 0x2028) || (c =? 0x2029) || (c =? 0x202F) || (c =? 0x205F)
   || (c =? 0x3000))%N.

Fixpoint lstrip (s : pystr) : pystr :=
  match s with
  | c :: r => if isspace c then lstrip r else s
  | [] => []
  end.

Definition rstrip (s : pystr) : pystr := rev (lstrip (rev s)).

(** [s.strip()] *)
Definition strip (s : pystr) : pystr := rstrip (lstrip s).

(** Truth value of a [str]: the empty string is falsy. *)
Definition str_truthy (s : pystr) : bool :=
  match s with [] => false | _ :: _ => true end.

(** [needle in hay] *)
Fixpoint startswith (p s : pystr) : bool :=
  match p, s with
  | [], _ => true
  | a :: p', b :: s' => (a =? b)%N && startswith p' s'
  | _ :: _, [] => false
  end.

Fixpoint contains (needle hay : pystr) : bool :=
  startswith needle hay ||
  match hay with
  | [] => false
  | _ :: r => contains needle r
  end.

(** [str(n)] for an [int]. *)
Definition int_str (z : Z) : pystr :=
  lit (NilZero.string_of_int (Z.to_int z)).


(** ** Python values

    The values a JSON document decodes to; used for the fields of a server
    reply that the transport library does not type. *)

#[warnings="-register-all"]
Inductive PyVal :=
| PNone
| PBool (b : bool)
| PInt (z : Z)
| PFloat (f : float)
| PStr (s : pystr)
| PList (l : list PyVal)
| PDict (d : list (pystr * PyVal)).

(** Truth value testing ([not v], [v or w]). *)
Definition truthy (v : PyVal) : bool :=
  match v with
  | PNone => false
  | PBool b => b
  | PInt z => negb (z =? 0)%Z
  | PFloat f => negb (f =? 0)%float
  | PStr s => str_truthy s
  | PList l => match l with [] => false | _ => true end
  | PDict d => match d with [] => false | _ => true end
  end.

(** [d.get(key)] on a [dict] with [str] keys: [None] when the key is absent. *)
Fixpoint dict_get (key : pystr) (d : list (pystr * PyVal)) : PyVal :=
  match d with
  | [] => PNone
  | (k, v) :: r => if pystr_eqb k key then v else dict_get key r
  end.

(** A keyword argument of a call: passed or left out. *)
Inductive kwarg (A : Type) :=
| NotGiven
| Given (a : A).
Arguments NotGiven {A}.
Arguments Given {A} a.

(** ** Exceptions *)

(** One entry of [pydantic.ValidationError.errors()]. *)
Record ErrorDetails := { loc : list pystr; type_ : pystr }.

Inductive Exn :=
| ValueError (msg : pystr)
| APIConnectionError (message : pystr)
| APITimeoutError (message : pystr)        (* subclass of APIConnectionError *)
| APIStatusError (message : pystr) (status_code : Z)
| ValidationError (title : pystr) (errors : list ErrorDetails)
| IndexError (msg : pystr)
| AttributeError (msg : pystr)
| UnboundLocalError (msg : pystr)
| OtherException (cls msg : pystr).

Inductive Result (A : Type) :=
| Return (a : A)
| Raise (e : Exn).
Arguments Return {A} a.
Arguments Raise {A} e.

(** The failure kinds the specification names. *)
Inductive Kind := InvalidArgument | ConnectionFailure | ServerStatusError
                | ResponseValidationError | OtherKind.

Definition kind_of (e : Exn) : Kind :=
  match e with
  | ValueError _ => InvalidArgument
  | APIConnectionError _ | APITimeoutError _ => ConnectionFailure
  | APIStatusError _ _ => ServerStatusError
  | ValidationError _ _ => ResponseValidationError
  | _ => OtherKind
  end.

(** ** The transport library ([openai]) *)

Module OpenAI.

(** The keyword arguments of [chat.completions.create]. *)
Record Request := {
  kw_model : pystr;
  kw_messages : list (list (pystr * pystr));
  kw_temperature : float;
  kw_max_tokens : kwarg (option Z);
  kw_extra_body : kwarg (list (pystr * PyVal));
  kw_response_format : kwarg (list (pystr * PyVal))
}.

(** A reply, as the attributes the wrapper reads.  The library builds its
    reply objects without validating them: an attribute the server left out
    (or sent as [null]) reads as [None], here [None] of [option]; this holds
    of the list of choices and of the message of a choice as of the fields
    below them.  The attribute [reasoning_content] and the map [model_extra]
    are not declared by the library: for them the outer [option] says
    whether the attribute exists on the object at all.  An attribute that is
    present holds a value of its declared type. *)
Record ChatCompletionMessage := {
  content : option pystr;
  reasoning_content : option PyVal;
  model_extra : option (list (pystr * PyVal))
}.

Record Choice := {
  message : option ChatCompletionMessage;
  finish_reason : option pystr
}.

Record CompletionUsage := {
  prompt_tokens : option Z;
  completion_tokens : option Z;
  total_tokens : option Z;
  (* further fields a server may add, such as token details *)
  usage_extra : list (pystr * PyVal)
}.

Record ChatCompletion := {
  choices : option (list Choice);
  usage : option CompletionUsage;
  model : option pystr
}.

(** The client handle [OpenAI(base_url=..., api_key=...)]; [create] is what
    one call of [chat.completions.create] does with the server behind it. *)
Record OpenAI := {
  base_url : pystr;
  api_key : pystr;
  create : Request -> Result ChatCompletion
}.

End OpenAI.

(** ** The schema library ([pydantic]) *)

(** A validated model instance: its fields, in declaration order. *)
Definition Instance := list (pystr * PyVal).

(** What [generate_structured] uses of a [type[BaseModel]]. *)
Record BaseModelClass := {
  model_json_schema : PyVal;
  model_validate_json : pystr -> Result Instance
}.

(** ** [LoomResponse] *)

Record LoomResponse := {
  content : pystr;
  reasoning : option pystr;
  token_usage : list (pystr * Z);
  model_used : pystr;
  finish_reason : pystr
}.

(** Field validators of pydantic, on the values [generate] can pass: a value
    of the declared type, or [None].  What the validators make of a value of
    another type (they convert some and refuse the others) is outside this
    model. *)

(** [str] *)
Definition validate_str (l : list pystr) (v : option pystr)
  : list ErrorDetails + pystr :=
  match v with
  | Some s => inr s
  | None => inl [{| loc := l; type_ := lit "string_type" |}]
  end.

(** [Optional[str]] *)
Definition validate_optional_str (l : list pystr) (v : PyVal)
  : list ErrorDetails + option pystr :=
  match v with
  | PNone => inr None
  | PStr s => inr (Some s)
  | _ => inl [{| loc := l; type_ := lit "string_type" |}]
  end.

Definition errors_of {A} (r : list ErrorDetails + A) : list ErrorDetails :=
  match r with inl es => es | inr _ => [] end.

(** [Dict[str, int]] *)
Fixpoint validate_dict_str_int (l : list pystr) (d : list (pystr * option Z))
  : list ErrorDetails + list (pystr * Z) :=
  match d with
  | [] => inr []
  | (k, v) :: r =>
      let here := match v with
                  | Some z => inr z
                  | None => inl [{| loc := l ++ [k]; type_ := lit "int_type" |}]
                  end in
      match here, validate_dict_str_int l r with
      | inr z, inr r' => inr ((k, z) :: r')
      | h, t => inl (errors_of h ++ errors_of t)
      end
  end.

(** [LoomResponse(content=..., reasoning=..., token_usage=..., model_used=...,
    finish_reason=...)]: every field is validated, all errors are collected.
    [reasoning] and [finish_reason] have defaults, used when the keyword is
    left out. *)
Definition new_LoomResponse
    (content : pystr) (reasoning : kwarg PyVal)
    (token_usage : list (pystr * option Z)) (model_used : option pystr)
    (finish_reason : kwarg (option pystr)) : Result LoomResponse :=
  let r := match reasoning with
           | NotGiven => inr None
           | Given v => validate_optional_str [lit "reasoning"] v
           end in
  let u := validate_dict_str_int [lit "token_usage"] token_usage in
  let m := validate_str [lit "model_used"] model_used in
  let f := match finish_reason with
           | NotGiven => inr (lit "unknown")
           | Given v => validate_str [lit "finish_reason"] v
           end in
  match r, u, m, f with
  | inr r', inr u', inr m', inr f' =>
      Return {| content := content; reasoning := r'; token_usage := u';
                model_used := m'; finish_reason := f' |}
  | _, _, _, _ =>
      Raise (ValidationError (lit "LoomResponse")
               (errors_of r ++ errors_of u ++ errors_of m ++ errors_of f))
  end.

(** ** Model classes of [pydantic], validated from JSON text *)

Module Pydantic.

#[warnings="-register-all"]
Inductive Json :=
| JNull
| JBool (b : bool)
| JNumber (lexeme : pystr)
| JString (s : pystr)
| JArray (xs : list Json)
| JObject (members : list (pystr * Json)).

Definition ch (a : ascii) : N := N_of_ascii a.
Definition quote : N := 0x22%N.
Definition backslash : N := 0x5C%N.

Definition is_ws (c : N) : bool :=
  ((c =? 0x20) || (c =? 0x09) || (c =? 0x0A) || (c =? 0x0D))%N.

Fixpoint skip_ws (s : pystr) : pystr :=
  match s with
  | c :: r => if is_ws c then skip_ws r else s
  | [] => []
  end.

Definition is_digit (c : N) : bool := ((ch "0" <=? c) && (c <=? ch "9"))%N.

Fixpoint span (p : N -> bool) (s : pystr) : pystr * pystr :=
  match s with
  | c :: r => if p c then let (a, b) := span p r in (c :: a, b) else ([], s)
  | [] => ([], [])
  end.

(** One or more digits. *)
Definition digits1 (s : pystr) : option (pystr * pystr) :=
  match span is_digit s with
  | ([], _) => None
  | (ds, r) => Some (ds, r)
  end.

(** A number of RFC 8259: an optional minus sign, an integer part without
    leading zeros, an optional fraction, an optional exponent. *)
Definition lex_number (s : pystr) : option (pystr * pystr) :=
  let (sign, s1) :=
    match s with
    | c :: r => if (c =? ch "-")%N then ([c], r) else ([], s)
    | [] => ([], s)
    end in
  let int_part :=
    match s1 with
    | c :: r => if (c =? ch "0")%N then Some ([c], r) else digits1 s1
    | [] => None
    end in
  match int_part with
  | None => None
  | Some (ip, s2) =>
      let frac :=
        match s2 with
        | c :: r =>
            if (c =? ch ".")%N then
              match digits1 r with
              | Some (ds, r') => Some (c :: ds, r')
              | None => None
              end
            else Some ([], s2)
        | [] => Some ([], s2)
        end in
      match frac with
      | None => None
      | Some (fp, s3) =>
          let expo :=
            match s3 with
            | c :: r =>
                if ((c =? ch "e") || (c =? ch "E"))%N then
                  let (es, r1) :=
                    match r with
                    | d :: r' =>
                        if ((d =? ch "+") || (d =? ch "-"))%N then ([d], r')
                        else ([], r)
                    | [] => ([], r)
                    end in
                  match digits1 r1 with
                  | Some (ds, r2) => Some (c :: es ++ ds, r2)
                  | None => None
                  end
                else Some ([], s3)
            | [] => Some ([], s3)
            end in
          match expo with
          | None => None
          | Some (ep, s4) => Some (sign ++ ip ++ fp ++ ep, s4)
          end
      end
  end.

Definition hex_digit (c : N) : option N :=
  (if is_digit c then Some (c - ch "0")
   else if (ch "a" <=? c) && (c <=? ch "f") then Some (c - ch "a" + 10)
   else if (ch "A" <=? c) && (c <=? ch "F") then Some (c - ch "A" + 10)
   else None)%N.

Definition hex4 (a b c d : N) : option N :=
  match hex_digit a, hex_digit b, hex_digit c, hex_digit d with
  | Some x, Some y, Some z, Some w => Some (((x * 16 + y) * 16 + z) * 16 + w)%N
  | _, _, _, _ => None
  end.

Definition simple_escape (e : N) : option N :=
  (if e =? quote then Some (quote)
   else if e =? backslash then Some (backslash)
   else if e =? ch "/" then Some (ch "/")
   else if e =? ch "b" then Some 0x08
   else if e =? ch "f" then Some 0x0C
   else if e =? ch "n" then Some 0x0A
   else if e =? ch "r" then Some 0x0D
   else if e =? ch "t" then Some 0x09
   else None)%N.

Definition is_high_surrogate (u : N) : bool := ((0xD800 <=? u) && (u <=? 0xDBFF))%N.
Definition is_low_surrogate (u : N) : bool := ((0xDC00 <=? u) && (u <=? 0xDFFF))%N.

(** The characters of a string, after its opening quote. *)
Fixpoint string_body (s acc : pystr) : option (pystr * pystr) :=
  match s with
  | [] => None
  | c :: r =>
      if (c =? quote)%N then Some (rev acc, r)
      else if (c =? backslash)%N then
        match r with
        | [] => None
        | e :: r1 =>
            if (e =? ch "u")%N then
              match r1 with
              | h1 :: h2 :: h3 :: h4 :: r2 =>
                  match hex4 h1 h2 h3 h4 with
                  | None => None
                  | Some u =>
                      if is_high_surrogate u then
                        match r2 with
                        | b :: v :: l1 :: l2 :: l3 :: l4 :: r3 =>
                            match hex4 l1 l2 l3 l4 with
                            | Some lo =>
                                if ((b =? backslash) && (v =? ch "u")
                                    && is_low_surrogate lo)%N
                                then string_body r3
                                       ((0x10000 + (u - 0xD800) * 0x400
                                         + (lo - 0xDC00))%N :: acc)
                                else None
                            | None => None
                            end
                        | _ => None
                        end
                      else if is_low_surrogate u then None
                      else string_body r2 (u :: acc)
                  end
              | _ => None
              end
            else
              match simple_escape e with
              | Some x => string_body r1 (x :: acc)
              | None => None
              end
        end
      else if (c <? 0x20)%N then None
      else string_body r (c :: acc)
  end.

(** [v , v , ... ]] after the opening bracket of a non-empty array. *)
Fixpoint elements (value : pystr -> option (Json * pystr)) (n : nat)
    (s : pystr) (acc : list Json) : option (list Json * pystr) :=
  match n with
  | O => None
  | S n' =>
      match value s with
      | None => None
      | Some (v, r) =>
          match skip_ws r with
          | c :: r' =>
              if (c =? ch ",")%N then elements value n' r' (v :: acc)
              else if (c =? ch "]")%N then Some (rev (v :: acc), r')
              else None
          | [] => None
          end
      end
  end.

(** ["k" : v , ... }] after the opening brace of a non-empty object. *)
Fixpoint members (value : pystr -> option (Json * pystr)) (n : nat)
    (s : pystr) (acc : list (pystr * Json))
  : option (list (pystr * Json) * pystr) :=
  match n with
  | O => None
  | S n' =>
      match skip_ws s with
      | q :: r0 =>
          if (q =? quote)%N then
            match string_body r0 [] with
            | None => None
            | Some (k, r1) =>
                match skip_ws r1 with
                | c :: r2 =>
                    if (c =? ch ":")%N then
                      match value r2 with
                      | None => None
                      | Some (v, r3) =>
                          match skip_ws r3 with
                          | d :: r4 =>
                              if (d =? ch ",")%N
                              then members value n' r4 ((k, v) :: acc)
                              else if (d =? ch "}")%N
                              then Some (rev ((k, v) :: acc), r4)
                              else None
                          | [] => None
                          end
                      end
                    else None
                | [] => None
                end
            end
          else None
      | [] => None
      end
  end.

(** One JSON value, with the text that follows it. *)
Fixpoint value (fuel : nat) (s : pystr) : option (Json * pystr) :=
  match fuel with
  | O => None
  | S n =>
      match skip_ws s with
      | [] => None
      | c :: r =>
          if (c =? ch "{")%N then
            match skip_ws r with
            | d :: r' =>
                if (d =? ch "}")%N then Some (JObject [], r')
                else match members (value n) n r [] with
                     | Some (ms, r'') => Some (JObject ms, r'')
                     | None => None
                     end
            | [] => None
            end
          else if (c =? ch "[")%N then
            match skip_ws r with
            | d :: r' =>
                if (d =? ch "]")%N then Some (JArray [], r')
                else match elements (value n) n r [] with
                     | Some (xs, r'') => Some (JArray xs, r'')
                     | None => None
                     end
            | [] => None
            end
          else if (c =? quote)%N then
            match string_body r [] with
            | Some (str, r') => Some (JString str, r')
            | None => None
            end
          else if startswith (lit "true") (c :: r) then
            Some (JBool true, skipn 4 (c :: r))
          else if startswith (lit "false") (c :: r) then
            Some (JBool false, skipn 5 (c :: r))
          else if startswith (lit "null") (c :: r) then
            Some (JNull, skipn 4 (c :: r))
          else if startswith (lit "NaN") (c :: r) then
            Some (JNumber (lit "NaN"), skipn 3 (c :: r))
          else if startswith (lit "Infinity") (c :: r) then
            Some (JNumber (lit "Infinity"), skipn 8 (c :: r))
          else if startswith (lit "-Infinity") (c :: r) then
            Some (JNumber (lit "-Infinity"), skipn 9 (c :: r))
          else
            match lex_number (c :: r) with
            | Some (lx, r') => Some (JNumber lx, r')
            | None => None
            end
      end
  end.

(** A whole document: one value, then nothing but whitespace.  The bound
    that the parser puts on the depth of nesting is not modelled, and a
    string may hold any code point from U+0020 on.  The properties of
    [generate_structured] read the parser on the text of the empty object
    and on whitespace; beyond that they use only that a document which
    validates is an object. *)
Definition json_loads (s : pystr) : option Json :=
  match value (S (List.length s)) s with
  | Some (v, r) => match skip_ws r with [] => Some v | _ => None end
  | None => None
  end.

(** A declared field: its name, the validator of its annotation (the
    validated value, or the type of the error), and its default; a field
    without a default is required. *)
Record FieldInfo := {
  name : pystr;
  validate : Json -> pystr + PyVal;
  default : option PyVal
}.

Definition required (f : FieldInfo) : bool :=
  match default f with
  | None => true
  | Some _ => false
  end.

(** The last member with key [k]. *)
Fixpoint lookup (k : pystr) (ms : list (pystr * Json)) : option Json :=
  match ms with
  | [] => None
  | (k', v) :: r =>
      match lookup k r with
      | Some w => Some w
      | None => if pystr_eqb k' k then Some v else None
      end
  end.

Definition validate_field (f : FieldInfo) (ms : list (pystr * Json))
  : list ErrorDetails + PyVal :=
  match lookup (name f) ms with
  | Some j =>
      match validate f j with
      | inl ty => inl [{| loc := [name f]; type_ := ty |}]
      | inr v => inr v
      end
  | None =>
      match default f with
      | Some d => inr d
      | None => inl [{| loc := [name f]; type_ := lit "missing" |}]
      end
  end.

(** Every declared field is validated; members that are not declared are
    ignored. *)
Fixpoint validate_fields (fields : list FieldInfo) (ms : list (pystr * Json))
  : list ErrorDetails + Instance :=
  match fields with
  | [] => inr []
  | f :: fs =>
      match validate_field f ms, validate_fields fs ms with
      | inr v, inr r => inr ((name f, v) :: r)
      | h, t => inl (errors_of h ++ errors_of t)
      end
  end.

(** [cls.model_validate_json(text)] *)
Definition validate_json (title : pystr) (fields : list FieldInfo)
    (text : pystr) : Result Instance :=
  match json_loads text with
  | None =>
      Raise (ValidationError title [{| loc := []; type_ := lit "json_invalid" |}])
  | Some (JObject ms) =>
      match validate_fields fields ms with
      | inr i => Return i
      | inl es => Raise (ValidationError title es)
      end
  | Some _ =>
      Raise (ValidationError title [{| loc := []; type_ := lit "model_type" |}])
  end.

(** A model class with the given fields; [schema] is its JSON schema. *)
Definition BaseModel (title : pystr) (schema : PyVal)
    (fields : list FieldInfo) : BaseModelClass :=
  {| model_json_schema := schema;
     model_validate_json := validate_json title fields |}.

(** The validator of a [str] field. *)
Definition str_field (j : Json) : pystr + PyVal :=
  match j with
  | JString s => inr (PStr s)
  | _ => inl (lit "string_type")
  end.

End Pydantic.

(** ** Interpreter state and the monad of calls *)

Record LoomClient := {
  client : OpenAI.OpenAI;
  model_name : pystr
}.

Record State := {
  self : LoomClient;                (* the client object *)
  wire : list OpenAI.Request;       (* requests given to the transport, oldest first *)
  stdout : list pystr               (* what [print] wrote, one entry per call *)
}.

Definition Py (A : Type) : Type := State -> Result A * State.

Definition ret {A} (a : A) : Py A := fun st => (Return a, st).

Definition raise {A} (e : Exn) : Py A := fun st => (Raise e, st).

Definition bind {A B} (m : Py A) (k : A -> Py B) : Py B :=
  fun st =>
    match m st with
    | (Return a, st') => k a st'
    | (Raise e, st') => (Raise e, st')
    end.

Declare Scope py_scope.
Delimit Scope py_scope with py.
Notation "x <- m ;; k" := (bind m (fun x => k))
  (at level 61, m at next level, right associativity) : py_scope.
Notation "m ;;; k" := (bind m (fun _ => k))
  (at level 61, right associativity) : py_scope.
Open Scope py_scope.

Definition lift {A} (r : Result A) : Py A := fun st => (r, st).

Definition get_self : Py LoomClient := fun st => (Return (self st), st).

(** The state after one more request, and after one more printed line. *)
Definition sent (req : OpenAI.Request) (st : State) : State :=
  {| self := self st; wire := wire st ++ [req]; stdout := stdout st |}.

Definition printed (line : pystr) (st : State) : State :=
  {| self := self st; wire := wire st; stdout := stdout st ++ [line] |}.

Definition print (line : pystr) : Py unit :=
  fun st => (Return tt, printed line st).

(** [c.chat.completions.create] applied to the keyword arguments [req]:
    one round trip. *)
Definition chat_completions_create (c : OpenAI.OpenAI) (req : OpenAI.Request)
  : Py OpenAI.ChatCompletion :=
  fun st => (OpenAI.create c req, sent req st).

(** [try: body except ...: handler]; [handlers e] is [None] when no
    [except] clause matches [e], which then propagates. *)
Definition try_except {A} (body : Py A) (handlers : Exn -> option (Py A))
  : Py A :=
  fun st =>
    match body st with
    | (Return a, st') => (Return a, st')
    | (Raise e, st') =>
        match handlers e with
        | Some h => h st'
        | None => (Raise e, st')
        end
    end.

(** [l[0]] where [l] is a list or [None]. *)
Definition index0 {A} (l : option (list A)) : Py A :=
  match l with
  | Some (x :: _) => ret x
  | Some [] => raise (IndexError (lit "list index out of range"))
  | None =>
      raise (OtherException (lit "TypeError")
               (lit "'NoneType' object is not subscriptable"))
  end.

(** [o.name] where [o] may be [None]. *)
Definition getattr_opt {A B} (o : option A) (name : string) (f : A -> B) : Py B :=
  match o with
  | Some a => ret (f a)
  | None => raise (AttributeError
              (lit "'NoneType' object has no attribute '" ++ lit name ++ lit "'"))
  end.

(** [s or d] on an optional [str]. *)
Definition str_or (s : option pystr) (d : pystr) : pystr :=
  match s with
  | Some (c :: r) => c :: r
  | _ => d
  end.

Definition nl : pystr := [10%N].

(** ** [json.dumps(v, indent=2)] *)

Definition hex_char (n : N) : N :=
  (if n <? 10 then 0x30 + n else 0x61 + (n - 10))%N.

(** [\uXXXX] *)
Definition u_escape (c : N) : pystr :=
  [0x5C; 0x75; hex_char ((c / 4096) mod 16); hex_char ((c / 256) mod 16);
   hex_char ((c / 16) mod 16); hex_char (c mod 16)]%N.

Definition escape_char (c : N) : pystr :=
  (if c =? 0x22 then [0x5C; 0x22]
   else if c =? 0x5C then [0x5C; 0x5C]
   else if c =? 0x0A then [0x5C; 0x6E]
   else if c =? 0x0D then [0x5C; 0x72]
   else if c =? 0x09 then [0x5C; 0x74]
   else if c =? 0x08 then [0x5C; 0x62]
   else if c =? 0x0C then [0x5C; 0x66]
   else if (0x20 <=? c) && (c <=? 0x7E) then [c]
   else if c <? 0x10000 then u_escape c
   else u_escape (0xD800 + (c - 0x10000) / 0x400)
        ++ u_escape (0xDC00 + (c - 0x10000) mod 0x400))%N.

(** A string between quotes, with everything but printable ASCII escaped. *)
Definition encode_basestring_ascii (s : pystr) : pystr :=
  [0x22%N] ++ flat_map escape_char s ++ [0x22%N].

Fixpoint join (sep : pystr) (parts : list pystr) : pystr :=
  match parts with
  | [] => []
  | [x] => x
  | x :: r => x ++ sep ++ join sep r
  end.

(** A line break followed by [level] indentations of two spaces. *)
Definition newline_indent (level : nat) : pystr :=
  [0x0A%N] ++ repeat 0x20%N (2 * level).

Section Dumps.

(** How the runtime prints a finite [float]. *)
Variable float_repr : float -> pystr.

Definition floatstr (f : float) : pystr :=
  if is_nan f then lit "NaN"
  else if (f =? infinity)%float then lit "Infinity"
  else if (f =? neg_infinity)%float then lit "-Infinity"
  else float_repr f.

Fixpoint iterencode (level : nat) (v : PyVal) {struct v} : pystr :=
  match v with
  | PNone => lit "null"
  | PBool true => lit "true"
  | PBool false => lit "false"
  | PInt z => int_str z
  | PFloat f => floatstr f
  | PStr s => encode_basestring_ascii s
  | PList [] => lit "[]"
  | PList l =>
      lit "[" ++ newline_indent (S level)
      ++ join (lit "," ++ newline_indent (S level))
           (List.map (iterencode (S level)) l)
      ++ newline_indent level ++ lit "]"
  | PDict [] => lit "{}"
  | PDict d =>
      lit "{" ++ newline_indent (S level)
      ++ join (lit "," ++ newline_indent (S level))
           (List.map (fun kv => encode_basestring_ascii (fst kv) ++ lit ": "
                                ++ iterencode (S level) (snd kv)) d)
      ++ newline_indent level ++ lit "}"
  end.

Definition json_dumps (v : PyVal) : pystr := iterencode 0 v.

End Dumps.

(** ** Fixtures of the test suite ([tests/test_loom_client.py]) *)

Module Fixtures.

(** How Python renders the temperatures used below ([-1.0] is the one of
    [test_preconditions_raise_value_error]); it stands for the runtime's
    formatting when the model is run on those inputs. *)
Definition float_repr (f : float) : pystr :=
  if (f =? -1)%float then lit "-1.0"
  else if (f =? 0.5)%float then lit "0.5"
  else if (f =? 2)%float then lit "2.0"
  else if (f =? 2.5)%float then lit "2.5"
  else if is_nan f then lit "nan"
  else lit "...".

(** [mock_response] of [test_successful_generation_structure]. *)
Definition mock_response : OpenAI.ChatCompletion :=
  {| OpenAI.choices :=
       Some [ {| OpenAI.message :=
                   Some {| OpenAI.content := Some (lit "Threadrippers are powerful.");
                           OpenAI.reasoning_content := Some PNone;
                           OpenAI.model_extra := Some [] |};
                 OpenAI.finish_reason := Some (lit "stop") |} ];
     OpenAI.usage :=
       Some {| OpenAI.prompt_tokens := Some 10%Z;
               OpenAI.completion_tokens := Some 5%Z;
               OpenAI.total_tokens := Some 15%Z;
               OpenAI.usage_extra := [] |};
     OpenAI.model := Some (lit "test-model") |}.

(** The same reply from a server that leaves out the finish reason. *)
Definition response_without_finish_reason : OpenAI.ChatCompletion :=
  {| OpenAI.choices :=
       Some [ {| OpenAI.message :=
                   Some {| OpenAI.content := Some (lit "Threadrippers are powerful.");
                           OpenAI.reasoning_content := None;
                           OpenAI.model_extra := Some [] |};
                 OpenAI.finish_reason := None |} ];
     OpenAI.usage := OpenAI.usage mock_response;
     OpenAI.model := Some (lit "test-model") |}.

(** The same reply with the total left out of the usage report. *)
Definition response_without_total : OpenAI.ChatCompletion :=
  {| OpenAI.choices := OpenAI.choices mock_response;
     OpenAI.usage :=
       Some {| OpenAI.prompt_tokens := Some 10%Z;
               OpenAI.completion_tokens := Some 5%Z;
               OpenAI.total_tokens := None;
               OpenAI.usage_extra := [] |};
     OpenAI.model := Some (lit "test-model") |}.

(** A reply without message content. *)
Definition response_without_content : OpenAI.ChatCompletion :=
  {| OpenAI.choices :=
       Some [ {| OpenAI.message :=
                   Some {| OpenAI.content := None;
                           OpenAI.reasoning_content := None;
                           OpenAI.model_extra := Some [] |};
                 OpenAI.finish_reason := Some (lit "stop") |} ];
     OpenAI.usage := OpenAI.usage mock_response;
     OpenAI.model := Some (lit "test-model") |}.

(** [loom]: a client whose transport does [outcome] on every call. *)
Definition loom (outcome : Result OpenAI.ChatCompletion) : LoomClient :=
  {| client := {| OpenAI.base_url := lit "http://fake-url";
                  OpenAI.api_key := lit "EMPTY";
                  OpenAI.create := fun _ => outcome |};
     model_name := lit "test-model" |}.

Definition start (outcome : Result OpenAI.ChatCompletion) : State :=
  {| self := loom outcome; wire := []; stdout := [] |}.

(** The server is down ([test_connection_error_handling]). *)
Definition unreachable : State :=
  start (Raise (APIConnectionError (lit "Connection error."))).

(** The server answers with [mock_response]. *)
Definition answering : State := start (Return mock_response).

(** [mock_response] of [test_generation_with_reasoning]. *)
Definition reasoning_response : OpenAI.ChatCompletion :=
  {| OpenAI.choices :=
       Some [ {| OpenAI.message :=
                   Some {| OpenAI.content := Some (lit "42");
                           OpenAI.reasoning_content :=
                             Some (PStr (lit "Thinking about the meaning of life..."));
                           OpenAI.model_extra := Some [] |};
                 OpenAI.finish_reason := Some (lit "stop") |} ];
     OpenAI.usage := OpenAI.usage mock_response;
     OpenAI.model := Some (lit "gpt-oss-120b") |}.

(** The same answer from a server whose reasoning is not an attribute of the
    message: it sits in [model_extra], after another extra field. *)
Definition response_with_extra_reasoning : OpenAI.ChatCompletion :=
  {| OpenAI.choices :=
       Some [ {| OpenAI.message :=
                   Some {| OpenAI.content := Some (lit "42");
                           OpenAI.reasoning_content := None;
                           OpenAI.model_extra :=
                             Some [ (lit "annotations", PList []);
                                    (lit "reasoning_content",
                                     PStr (lit "Thinking about the meaning of life...")) ] |};
                 OpenAI.finish_reason := Some (lit "stop") |} ];
     OpenAI.usage := OpenAI.usage mock_response;
     OpenAI.model := Some (lit "gpt-oss-120b") |}.

(** The same answer with a text in both places. *)
Definition response_with_both_reasonings : OpenAI.ChatCompletion :=
  {| OpenAI.choices :=
       Some [ {| OpenAI.message :=
                   Some {| OpenAI.content := Some (lit "42");
                           OpenAI.reasoning_content :=
                             Some (PStr (lit "Thinking about the meaning of life..."));
                           OpenAI.model_extra :=
                             Some [ (lit "reasoning_content", PStr (lit "Another thought.")) ] |};
                 OpenAI.finish_reason := Some (lit "stop") |} ];
     OpenAI.usage := OpenAI.usage mock_response;
     OpenAI.model := Some (lit "gpt-oss-120b") |}.

(** A model class all of whose fields have defaults,
    [class Note(BaseModel): title: str = "untitled"; body: str = "note"],
    and one with a required field,
    [class Cpu(BaseModel): cpu_name: str; vendor: str = "AMD"],
    each with its JSON schema. *)
Definition string_property (title : string) (default : option string) : PyVal :=
  PDict (match default with
         | Some d => [(lit "default", PStr (lit d))]
         | None => []
         end
         ++ [(lit "title", PStr (lit title)); (lit "type", PStr (lit "string"))]).

Definition Note : BaseModelClass :=
  Pydantic.BaseModel (lit "Note")
    (PDict [ (lit "properties",
              PDict [ (lit "title", string_property "Title" (Some "untitled"%string));
                      (lit "body", string_property "Body" (Some "note"%string)) ]);
             (lit "title", PStr (lit "Note"));
             (lit "type", PStr (lit "object")) ])
    [ {| Pydantic.name := lit "title"; Pydantic.validate := Pydantic.str_field;
         Pydantic.default := Some (PStr (lit "untitled")) |};
      {| Pydantic.name := lit "body"; Pydantic.validate := Pydantic.str_field;
         Pydantic.default := Some (PStr (lit "note")) |} ].

Definition Cpu : BaseModelClass :=
  Pydantic.BaseModel (lit "Cpu")
    (PDict [ (lit "properties",
              PDict [ (lit "cpu_name", string_property "Cpu Name" None);
                      (lit "vendor", string_property "Vendor" (Some "AMD"%string)) ]);
             (lit "required", PList [PStr (lit "cpu_name")]);
             (lit "title", PStr (lit "Cpu"));
             (lit "type", PStr (lit "object")) ])
    [ {| Pydantic.name := lit "cpu_name"; Pydantic.validate := Pydantic.str_field;
         Pydantic.default := None |};
      {| Pydantic.name := lit "vendor"; Pydantic.validate := Pydantic.str_field;
         Pydantic.default := Some (PStr (lit "AMD")) |} ].

(** A reply without any choice, and one whose content is a line break. *)
Definition response_without_choices : OpenAI.ChatCompletion :=
  {| OpenAI.choices := Some [];
     OpenAI.usage := OpenAI.usage mock_response;
     OpenAI.model := Some (lit "test-model") |}.

Definition response_with_blank_content : OpenAI.ChatCompletion :=
  {| OpenAI.choices :=
       Some [ {| OpenAI.message :=
                   Some {| OpenAI.content := Some [0x0A%N];
                           OpenAI.reasoning_content := None;
                           OpenAI.model_extra := Some [] |};
                 OpenAI.finish_reason := Some (lit "stop") |} ];
     OpenAI.usage := OpenAI.usage mock_response;
     OpenAI.model := Some (lit "test-model") |}.

(** An error payload that a server sends with status 200: none of the fields
    of a completion; and a reply whose only choice carries no message. *)
Definition error_payload : OpenAI.ChatCompletion :=
  {| OpenAI.choices := None;
     OpenAI.usage := None;
     OpenAI.model := None |}.

Definition response_without_message : OpenAI.ChatCompletion :=
  {| OpenAI.choices :=
       Some [ {| OpenAI.message := None;
                 OpenAI.finish_reason := Some (lit "stop") |} ];
     OpenAI.usage := OpenAI.usage mock_response;
     OpenAI.model := Some (lit "test-model") |}.

(** The server answers with status 503. *)
Definition unavailable : State :=
  start (Raise (APIStatusError (lit "Service Unavailable") 503)).

(** What [generate] returns on [mock_response]. *)
Definition mock_result : LoomResponse :=
  {| content := lit "Threadrippers are powerful.";
     reasoning := None;
     token_usage := [ (lit "prompt_tokens", 10%Z);
                      (lit "completion_tokens", 5%Z);
                      (lit "total_tokens", 15%Z) ];
     model_used := lit "test-model";
     finish_reason := lit "stop" |}.

End Fixtures.

(** ** [LoomClient] *)

Definition default_max_tokens : Z := (-1)%Z.

(** [getattr(o, name, None)] for an attribute that the class of [o] does not
    declare: [None] has no such attribute. *)
Definition getattr_or_none {A} (o : option A) (f : A -> option PyVal) : PyVal :=
  match o with
  | Some a => match f a with
              | Some v => v
              | None => PNone
              end
  | None => PNone
  end.

(** Lines 116-118 of [generate]: [getattr(message, "reasoning_content", None)],
    then the entry of [model_extra] when that is falsy and the object has a
    [model_extra]; [message] is [None] when the choice carries none. *)
Definition extract_reasoning_content
    (message : option OpenAI.ChatCompletionMessage) : PyVal :=
  let reasoning_content := getattr_or_none message OpenAI.reasoning_content in
  match negb (truthy reasoning_content), message with
  | true, Some m =>
      match OpenAI.model_extra m with
      | Some extra => dict_get (lit "reasoning_content") extra
      | None => reasoning_content
      end
  | _, _ => reasoning_content
  end.

(** The three checks at the head of [generate], as one test. *)
Definition preconditions (system_prompt user_prompt : pystr)
    (temperature : float) : bool :=
  str_truthy (strip system_prompt) && str_truthy (strip user_prompt)
  && ((0 <=? temperature)%float && (temperature <=? 2)%float).

(** A reply in which every field the library declares is present. *)
Definition full_reply (message : OpenAI.ChatCompletionMessage) (finish : pystr)
    (rest : list OpenAI.Choice) (prompt completion total : Z)
    (extra : list (pystr * PyVal)) (model : pystr) : OpenAI.ChatCompletion :=
  {| OpenAI.choices :=
       Some ({| OpenAI.message := Some message;
                OpenAI.finish_reason := Some finish |} :: rest);
     OpenAI.usage :=
       Some {| OpenAI.prompt_tokens := Some prompt;
               OpenAI.completion_tokens := Some completion;
               OpenAI.total_tokens := Some total;
               OpenAI.usage_extra := extra |};
     OpenAI.model := Some model |}.

(** What [Optional[str]] makes of a value it accepts. *)
Definition text_of (v : PyVal) : option pystr :=
  match v with
  | PStr s => Some s
  | _ => None
  end.

(** A value [Optional[str]] accepts. *)
Definition is_text_or_none (v : PyVal) : bool :=
  match v with
  | PNone | PStr _ => true
  | _ => false
  end.

(** ** The aggregation of the benchmark ([benchmark.py], line 45) *)

(** [d[key]] on a [dict] with [str] keys: a missing key raises [KeyError]. *)
Fixpoint dict_getitem (key : pystr) (d : list (pystr * Z)) : Result Z :=
  match d with
  | [] => Raise (OtherException (lit "KeyError") key)
  | (k, v) :: r => if pystr_eqb k key then Return v else dict_getitem key r
  end.

(** [sum(r.token_usage["completion_tokens"] for r in results)], the running
    total being [acc]. *)
Fixpoint sum_completion_tokens (acc : Z) (results : list LoomResponse)
  : Result Z :=
  match results with
  | [] => Return acc
  | r :: rest =>
      match dict_getitem (lit "completion_tokens") (token_usage r) with
      | Return c => sum_completion_tokens (acc + c) rest
      | Raise e => Raise e
      end
  end.

Definition total_generated_tokens (results : list LoomResponse) : Result Z :=
  sum_completion_tokens 0 results.

Section Client.

(** Formatting done by the Python runtime: how a [float] is printed. *)
Variable float_repr : float -> pystr.

(** The keyword arguments [generate] passes to [chat.completions.create]. *)
Definition generate_kwargs (self : LoomClient)
    (system_prompt user_prompt : pystr) (temperature : float)
    (max_tokens : Z) (enable_reasoning : bool) : OpenAI.Request :=
  {| OpenAI.kw_model := model_name self;
     OpenAI.kw_messages :=
       [ [(lit "role", lit "system"); (lit "content", system_prompt)];
         [(lit "role", lit "user"); (lit "content", user_prompt)] ];
     OpenAI.kw_temperature := temperature;
     OpenAI.kw_max_tokens :=
       Given (if (max_tokens >? 0)%Z then Some max_tokens else None);
     OpenAI.kw_extra_body :=
       Given [(lit "enable_reasoning", PBool enable_reasoning)];
     OpenAI.kw_response_format := NotGiven |}.

Definition generate (system_prompt user_prompt : pystr) (temperature : float)
    (max_tokens : Z) (enable_reasoning : bool) : Py LoomResponse :=
  (* Validate Pre-conditions *)
  if negb (str_truthy (strip system_prompt)) then
    raise (ValueError (lit "Pre-condition failed: system_prompt cannot be empty."))
  else if negb (str_truthy (strip user_prompt)) then
    raise (ValueError (lit "Pre-condition failed: user_prompt cannot be empty."))
  else if negb ((0 <=? temperature)%float && (temperature <=? 2)%float) then
    raise (ValueError (lit "Pre-condition failed: temperature "
                         ++ float_repr temperature
                         ++ lit " is out of range (0.0-2.0)."))
  else
    try_except
      (self <- get_self ;;
       (* Execute Request *)
       response <- chat_completions_create (client self)
         (generate_kwargs self system_prompt user_prompt temperature
            max_tokens enable_reasoning) ;;
       (* Process Response *)
       choice <- index0 (OpenAI.choices response) ;;
       let message := OpenAI.message choice in
       (* Extract the hidden reasoning field *)
       let reasoning_content := extract_reasoning_content message in
       (* Explicitly extract only the standard fields *)
       prompt <- getattr_opt (OpenAI.usage response) "prompt_tokens"
                   OpenAI.prompt_tokens ;;
       completion <- getattr_opt (OpenAI.usage response) "completion_tokens"
                       OpenAI.completion_tokens ;;
       total <- getattr_opt (OpenAI.usage response) "total_tokens"
                  OpenAI.total_tokens ;;
       let usage_stats :=
         [ (lit "prompt_tokens", prompt);
           (lit "completion_tokens", completion);
           (lit "total_tokens", total) ] in
       (* Satisfy Post-conditions via Pydantic validation *)
       content <- getattr_opt (OpenAI.message choice) "content" OpenAI.content ;;
       lift (new_LoomResponse
               (str_or content [])
               (Given reasoning_content)
               usage_stats
               (OpenAI.model response)
               (Given (OpenAI.finish_reason choice))))
      (fun e =>
         match e with
         | APIConnectionError _ | APITimeoutError _ =>
             Some (self <- get_self ;;
                   print (lit "Loom Connection Error: Could not reach "
                            ++ OpenAI.base_url (client self)) ;;;
                   raise e)
         | APIStatusError _ code =>
             Some (print (lit "Loom Status Error: Server returned "
                            ++ int_str code) ;;;
                   raise e)
         | _ => None
         end).

(** The [except] clauses of [generate_structured].  They print the local
    [content], which is bound only once the reply has been read; every
    clause ends by raising. *)
Definition structured_handlers {A} (content : option pystr) (e : Exn)
  : option (Py A) :=
  match e with
  | ValidationError _ _ =>
      Some match content with
           | Some c =>
               print (lit "Loom Validation Error: Model output did not match schema."
                        ++ nl ++ lit "Output: " ++ c) ;;;
               raise e
           | None =>
               raise (UnboundLocalError
                 (lit "cannot access local variable 'content' where it is not associated with a value"))
           end
  | APIStatusError _ code =>
      Some (print (lit "Loom Status Error: " ++ int_str code) ;;; raise e)
  | _ => None
  end.

(** The keyword arguments [generate_structured] passes to
    [chat.completions.create]. *)
Definition generate_structured_kwargs (self : LoomClient)
    (system_prompt user_prompt : pystr) (response_model : BaseModelClass)
    (temperature : float) : OpenAI.Request :=
  (* 1. Generate the JSON Schema from the Pydantic model *)
  let schema := model_json_schema response_model in
  let schema_str := json_dumps float_repr schema in
  (* 2. Append instructions to the system prompt *)
  let guided_system_prompt :=
    system_prompt ++ nl ++ nl
    ++ lit "You must respond with valid JSON strictly following this schema:" ++ nl
    ++ lit "```json" ++ nl ++ schema_str ++ nl ++ lit "```" ++ nl
    ++ lit "Do not add any markdown formatting or chatter." in
  {| OpenAI.kw_model := model_name self;
     OpenAI.kw_messages :=
       [ [(lit "role", lit "system"); (lit "content", guided_system_prompt)];
         [(lit "role", lit "user"); (lit "content", user_prompt)] ];
     OpenAI.kw_temperature := temperature;
     OpenAI.kw_max_tokens := NotGiven;
     OpenAI.kw_extra_body := NotGiven;
     OpenAI.kw_response_format :=
       Given [(lit "type", PStr (lit "json_object"))] |}.

Definition generate_structured (system_prompt user_prompt : pystr)
    (response_model : BaseModelClass) (temperature : float) : Py Instance :=
  (* the try block, up to the assignment of [content] *)
  content <- try_except
    (self <- get_self ;;
     response <- chat_completions_create (client self)
       (generate_structured_kwargs self system_prompt user_prompt
          response_model temperature) ;;
     choice <- index0 (OpenAI.choices response) ;;
     content <- getattr_opt (OpenAI.message choice) "content" OpenAI.content ;;
     ret (str_or content (lit "{}")))
    (structured_handlers None) ;;
  (* 4. Validate and Parse: the rest of the try block *)
  try_except
    (lift (model_validate_json response_model content))
    (structured_handlers (Some content)).

(** * Properties *)

(** ** Facts about strings *)

Lemma lstrip_nil_iff (s : pystr) : lstrip s = [] <-> forallb isspace s = true.
Proof.
  induction s as [|c r IH]; simpl.
  - tauto.
  - destruct (isspace c); simpl.
    + exact IH.
    + split; discriminate.
Qed.

Lemma forallb_rev {A} (f : A -> bool) (l : list A) :
  forallb f (rev l) = forallb f l.
Proof.
  induction l as [|a l IH]; simpl; trivial.
  rewrite forallb_app, IH. simpl. rewrite andb_true_r. apply andb_comm.
Qed.

Lemma lstrip_all_space (s : pystr) :
  forallb isspace s = true -> lstrip s = [].
Proof. apply lstrip_nil_iff. Qed.

Lemma lstrip_suffix (s : pystr) : exists p, s = p ++ lstrip s /\ forallb isspace p = true.
Proof.
  induction s as [|c r [p [Hp Hs]]]; simpl.
  - exists []. auto.
  - destruct (isspace c) eqn:E.
    + exists (c :: p). simpl. rewrite E, Hs. split; [congruence | reflexivity].
    + exists []. auto.
Qed.

(** [s.strip()] is empty exactly when [s] is made of whitespace only. *)
Lemma strip_nil_iff (s : pystr) : strip s = [] <-> forallb isspace s = true.
Proof.
  unfold strip, rstrip. split.
  - intros H.
    assert (H' : lstrip (rev (lstrip s)) = []).
    { apply (f_equal (@rev N)) in H. rewrite rev_involutive in H. exact H. }
    apply lstrip_nil_iff in H'. rewrite forallb_rev in H'.
    destruct (lstrip_suffix s) as [p [Hp Hs]].
    rewrite Hp, forallb_app, Hs, H'. reflexivity.
  - intros H. rewrite (lstrip_all_space s H). reflexivity.
Qed.

Lemma startswith_app (p s : pystr) : startswith p (p ++ s) = true.
Proof.
  induction p as [|a p IH]; simpl; trivial.
  rewrite N.eqb_refl. exact IH.
Qed.

Lemma contains_app (x a b : pystr) : contains x (a ++ x ++ b) = true.
Proof.
  induction a as [|c a IH]; simpl.
  - destruct (x ++ b) eqn:E; simpl; rewrite <- E, startswith_app; reflexivity.
  - rewrite IH. apply orb_true_r.
Qed.

(** ** Facts about floats *)

Lemma ltb_zero_not_leb (t : float) : (t <? 0)%float = true -> (0 <=? t)%float = false.
Proof.
  rewrite ltb_spec, leb_spec. unfold SFltb, SFleb.
  change (Prim2SF 0) with (S754_zero false).
  destruct (Prim2SF t) as [ [] | [] | | [] m e ]; cbn [SFcompare]; congruence.
Qed.

Lemma ltb_two_not_leb (t : float) : (2 <? t)%float = true -> (t <=? 2)%float = false.
Proof.
  rewrite ltb_spec, leb_spec. unfold SFltb, SFleb.
  set (two := Prim2SF 2). vm_compute in two. subst two.
  destruct (Prim2SF t) as [ [] | [] | | [] m e ]; cbn [SFcompare]; try congruence.
  rewrite (Z.compare_antisym e (-51)).
  destruct (e ?= -51)%Z; cbn [CompOpp]; try congruence.
  pose proof (Pos.compare_cont_antisym m 4503599627370496 Eq) as H.
  cbn [CompOpp] in H. rewrite <- H.
  destruct (Pos.compare_cont Eq m 4503599627370496); cbn [CompOpp]; congruence.
Qed.

Lemma nan_not_leb (t : float) : is_nan t = true -> (0 <=? t)%float = false.
Proof.
  unfold is_nan. rewrite FloatAxioms.eqb_spec, leb_spec. unfold SFeqb, SFleb.
  change (Prim2SF 0) with (S754_zero false).
  destruct (Prim2SF t) as [ [] | [] | | [] m e ]; cbn [SFcompare negb];
    try congruence.
  rewrite Z.compare_refl, Pos.compare_cont_refl. cbn [negb]. congruence.
Qed.

(** Every temperature falls in one of the four cases. *)
Lemma temperature_cases (t : float) :
  ((0 <=? t)%float && (t <=? 2)%float) = true
  \/ (t <? 0)%float = true \/ (2 <? t)%float = true \/ is_nan t = true.
Proof.
  unfold is_nan.
  rewrite FloatAxioms.eqb_spec, !ltb_spec, !leb_spec.
  unfold SFeqb, SFltb, SFleb.
  set (two := Prim2SF 2). vm_compute in two. subst two.
  change (Prim2SF 0) with (S754_zero false).
  destruct (Prim2SF t) as [ [] | [] | | [] m e ]; cbn [SFcompare negb andb];
    auto.
  rewrite (Z.compare_antisym e (-51)).
  destruct (e ?= -51)%Z; cbn [CompOpp]; auto.
  pose proof (Pos.compare_cont_antisym m 4503599627370496 Eq) as H.
  cbn [CompOpp] in H. rewrite <- H.
  destruct (Pos.compare_cont Eq m 4503599627370496); cbn [CompOpp]; auto.
Qed.

(** ** What one call does *)

Arguments lit : simpl never.
Arguments int_str : simpl never.

Lemma str_truthy_false (s : pystr) : str_truthy s = false <-> s = [].
Proof. destruct s; simpl; split; congruence. Qed.

Lemma str_truthy_true (s : pystr) : str_truthy s = true <-> s <> [].
Proof. destruct s; simpl; split; congruence. Qed.

Lemma preconditions_true (sp up : pystr) (t : float) :
  preconditions sp up t = true <->
  strip sp <> [] /\ strip up <> [] /\ (0 <=? t)%float = true /\ (t <=? 2)%float = true.
Proof.
  unfold preconditions. rewrite !andb_true_iff, !str_truthy_true. tauto.
Qed.

(** A call with a blank system prompt stops at the first check. *)
Lemma generate_blank_system_prompt sp up t mt er st :
  strip sp = [] ->
  generate sp up t mt er st =
  (Raise (ValueError (lit "Pre-condition failed: system_prompt cannot be empty.")), st).
Proof. intros H. unfold generate. rewrite H. reflexivity. Qed.

(** A call with a blank user prompt stops at the second check. *)
Lemma generate_blank_user_prompt sp up t mt er st :
  strip sp <> [] -> strip up = [] ->
  generate sp up t mt er st =
  (Raise (ValueError (lit "Pre-condition failed: user_prompt cannot be empty.")), st).
Proof.
  intros Hs Hu. unfold generate. apply str_truthy_true in Hs.
  rewrite Hs, Hu. reflexivity.
Qed.

(** A call whose temperature fails the range test stops at the third check. *)
Lemma generate_bad_temperature sp up t mt er st :
  strip sp <> [] -> strip up <> [] ->
  ((0 <=? t)%float && (t <=? 2)%float) = false ->
  generate sp up t mt er st =
  (Raise (ValueError (lit "Pre-condition failed: temperature " ++ float_repr t
                        ++ lit " is out of range (0.0-2.0).")), st).
Proof.
  intros Hs Hu Ht. unfold generate. apply str_truthy_true in Hs, Hu.
  rewrite Hs, Hu, Ht. reflexivity.
Qed.

(** A call that passes the three checks makes one round trip; what happens
    next depends on what the transport does. *)
Lemma generate_accepted sp up t mt er st :
  preconditions sp up t = true ->
  generate sp up t mt er st =
  try_except
    (self <- get_self ;;
     response <- chat_completions_create (client self)
       (generate_kwargs self sp up t mt er) ;;
     choice <- index0 (OpenAI.choices response) ;;
     prompt <- getattr_opt (OpenAI.usage response) "prompt_tokens"
                 OpenAI.prompt_tokens ;;
     completion <- getattr_opt (OpenAI.usage response) "completion_tokens"
                     OpenAI.completion_tokens ;;
     total <- getattr_opt (OpenAI.usage response) "total_tokens"
                OpenAI.total_tokens ;;
     content <- getattr_opt (OpenAI.message choice) "content" OpenAI.content ;;
     lift (new_LoomResponse
             (str_or content [])
             (Given (extract_reasoning_content (OpenAI.message choice)))
             [ (lit "prompt_tokens", prompt);
               (lit "completion_tokens", completion);
               (lit "total_tokens", total) ]
             (OpenAI.model response)
             (Given (OpenAI.finish_reason choice))))
    (fun e =>
       match e with
       | APIConnectionError _ | APITimeoutError _ =>
           Some (self <- get_self ;;
                 print (lit "Loom Connection Error: Could not reach "
                          ++ OpenAI.base_url (client self)) ;;;
                 raise e)
       | APIStatusError _ code =>
           Some (print (lit "Loom Status Error: Server returned "
                          ++ int_str code) ;;;
                 raise e)
       | _ => None
       end) st.
Proof.
  intros H. apply preconditions_true in H. destruct H as (Hs & Hu & H0 & H2).
  apply str_truthy_true in Hs, Hu.
  unfold generate. rewrite Hs, Hu, H0, H2. reflexivity.
Qed.

(** The transport is reached: the request of the call is put on the wire,
    once, whatever the transport then does. *)
Lemma generate_accepted_wire sp up t mt er st :
  preconditions sp up t = true ->
  wire (snd (generate sp up t mt er st)) =
  wire st ++ [generate_kwargs (self st) sp up t mt er]
  /\ self (snd (generate sp up t mt er st)) = self st.
Proof.
  intros H. rewrite generate_accepted by assumption.
  unfold try_except, bind, get_self, chat_completions_create.
  destruct (OpenAI.create _ _) as [response|e]; cbn [fst snd].
  - destruct (OpenAI.choices response) as [[|choice rest]|]; cbn; auto.
    destruct (OpenAI.usage response) as [u|]; cbn; auto.
    destruct (OpenAI.message choice) as [message|]; cbn; auto.
    unfold lift. destruct (new_LoomResponse _ _ _ _ _) as [r|e]; [|destruct e];
      cbn; auto.
  - destruct e; cbn; auto.
Qed.


(** In a call that passed the checks, a [ValueError] can only be one the
    transport raised. *)
Lemma generate_accepted_value_error sp up t mt er st msg :
  preconditions sp up t = true ->
  fst (generate sp up t mt er st) = Raise (ValueError msg) ->
  OpenAI.create (client (self st)) (generate_kwargs (self st) sp up t mt er)
  = Raise (ValueError msg).
Proof.
  intros H. rewrite generate_accepted by assumption.
  unfold try_except, bind, get_self, chat_completions_create.
  destruct (OpenAI.create _ _) as [response|e]; cbn [fst snd].
  - destruct (OpenAI.choices response) as [[|choice rest]|]; cbn;
      try discriminate.
    destruct (OpenAI.usage response) as [u|]; cbn; try discriminate.
    destruct (OpenAI.message choice) as [message|]; cbn; try discriminate.
    unfold new_LoomResponse.
    destruct (validate_optional_str _ _), (validate_dict_str_int _ _),
      (validate_str _ (OpenAI.model response)),
      (validate_str _ (OpenAI.finish_reason choice)); cbn; discriminate.
  - destruct e; cbn; congruence.
Qed.

(** ** The preconditions of [generate] *)

(** C1. Whenever the system prompt or the user prompt is empty once its
    whitespace is trimmed, [generate] raises a [ValueError] (the
    specification's InvalidArgument) whose message names the offending
    field, and the state after the call is the state before it: nothing was
    given to the transport, nothing was printed, the client is as it was. *)
Theorem generate_rejects_blank_prompts sp up t mt er st :
  strip sp = [] \/ strip up = [] ->
  exists (field : string) (msg : pystr),
    generate sp up t mt er st = (Raise (ValueError msg), st)
    /\ kind_of (ValueError msg) = InvalidArgument
    /\ contains (lit field) msg = true
    /\ ((field = "system_prompt"%string /\ strip sp = [])
        \/ (field = "user_prompt"%string /\ strip up = [])).
Proof.
  intros H.
  destruct (list_eq_dec N.eq_dec (strip sp) []) as [Hs|Hs].
  - exists "system_prompt"%string. eexists.
    rewrite (generate_blank_system_prompt _ _ _ _ _ _ Hs).
    repeat split. left. auto.
  - destruct H as [H|Hu]; [contradiction|].
    exists "user_prompt"%string. eexists.
    rewrite (generate_blank_user_prompt _ _ _ _ _ _ Hs Hu).
    repeat split. right. auto.
Qed.

(** C5. With prompts that pass, a temperature below 0.0, above 2.0 or not a
    number makes [generate] raise a [ValueError] whose message contains the
    rendering of that temperature, the state being left as it was; a
    temperature [t] with [0.0 <= t <= 2.0] lets the call reach the
    transport, and a [ValueError] can then only be one raised by the
    transport itself. *)
Theorem generate_temperature_range sp up t mt er st :
  strip sp <> [] -> strip up <> [] ->
  (((t <? 0)%float = true \/ (2 <? t)%float = true \/ is_nan t = true) ->
   exists msg,
     generate sp up t mt er st = (Raise (ValueError msg), st)
     /\ kind_of (ValueError msg) = InvalidArgument
     /\ contains (float_repr t) msg = true)
  /\
  (((0 <=? t)%float = true /\ (t <=? 2)%float = true) ->
   wire (snd (generate sp up t mt er st))
   = wire st ++ [generate_kwargs (self st) sp up t mt er]
   /\ forall msg,
        fst (generate sp up t mt er st) = Raise (ValueError msg) ->
        OpenAI.create (client (self st)) (generate_kwargs (self st) sp up t mt er)
        = Raise (ValueError msg)).
Proof.
  intros Hs Hu. split.
  - intros Hout.
    assert (Ht : ((0 <=? t)%float && (t <=? 2)%float) = false).
    { destruct Hout as [H|[H|H]].
      + rewrite (ltb_zero_not_leb _ H). reflexivity.
      + rewrite (ltb_two_not_leb _ H). apply andb_false_r.
      + rewrite (nan_not_leb _ H). reflexivity. }
    eexists. rewrite (generate_bad_temperature _ _ _ _ _ _ Hs Hu Ht).
    repeat split. apply contains_app.
  - intros [H0 H2].
    assert (H : preconditions sp up t = true).
    { apply preconditions_true. auto. }
    split.
    + apply generate_accepted_wire; assumption.
    + intros msg. apply generate_accepted_value_error. exact H.
Qed.

(** Both endpoints pass the range test, and so does the negative zero. *)
Lemma preconditions_endpoints :
  preconditions (lit "System") (lit "User") 0 = true
  /\ preconditions (lit "System") (lit "User") 2 = true
  /\ preconditions (lit "System") (lit "User") (-0) = true.
Proof. repeat split; vm_compute; reflexivity. Qed.

(** ** The request on the wire *)

(** C6. In a call that passes the checks, exactly one request is put on the
    wire; its [max_tokens] is [None] when the argument is zero or negative
    and is the argument itself when it is positive. *)
Theorem generate_max_tokens_on_wire sp up t mt er st :
  preconditions sp up t = true ->
  exists req,
    wire (snd (generate sp up t mt er st)) = wire st ++ [req]
    /\ ((mt <= 0)%Z -> OpenAI.kw_max_tokens req = Given None)
    /\ ((0 < mt)%Z -> OpenAI.kw_max_tokens req = Given (Some mt)).
Proof.
  intros H. exists (generate_kwargs (self st) sp up t mt er).
  split; [apply generate_accepted_wire; assumption|].
  unfold generate_kwargs; cbn [OpenAI.kw_max_tokens].
  split; intros Hm.
  - destruct (Z.gtb_spec mt 0); [lia | reflexivity].
  - destruct (Z.gtb_spec mt 0); [reflexivity | lia].
Qed.

(** The default [max_tokens=-1] means no limit. *)
Lemma default_max_tokens_no_limit self sp up t er :
  OpenAI.kw_max_tokens (generate_kwargs self sp up t default_max_tokens er)
  = Given None.
Proof. reflexivity. Qed.

(** ** Replies *)

Lemma new_LoomResponse_full c v p cm tot mdl fr :
  is_text_or_none v = true ->
  new_LoomResponse c (Given v)
    [ (lit "prompt_tokens", Some p); (lit "completion_tokens", Some cm);
      (lit "total_tokens", Some tot) ]
    (Some mdl) (Given (Some fr))
  = Return {| content := c; reasoning := text_of v;
              token_usage := [ (lit "prompt_tokens", p);
                               (lit "completion_tokens", cm);
                               (lit "total_tokens", tot) ];
              model_used := mdl; finish_reason := fr |}.
Proof. destruct v; cbn; try discriminate; reflexivity. Qed.

(** The declared default of [finish_reason] is used when the keyword is
    left out of the constructor call. *)
Lemma new_LoomResponse_default_finish_reason c p cm tot mdl :
  new_LoomResponse c NotGiven
    [ (lit "prompt_tokens", Some p); (lit "completion_tokens", Some cm);
      (lit "total_tokens", Some tot) ]
    (Some mdl) NotGiven
  = Return {| content := c; reasoning := None;
              token_usage := [ (lit "prompt_tokens", p);
                               (lit "completion_tokens", cm);
                               (lit "total_tokens", tot) ];
              model_used := mdl; finish_reason := lit "unknown" |}.
Proof. reflexivity. Qed.

(** Passing [None] for [finish_reason] is a validation error, whatever the
    other arguments are. *)
Lemma new_LoomResponse_finish_reason_None c v u mdl :
  exists es,
    new_LoomResponse c v u mdl (Given None)
    = Raise (ValidationError (lit "LoomResponse") es)
    /\ In {| loc := [lit "finish_reason"]; type_ := lit "string_type" |} es.
Proof.
  unfold new_LoomResponse.
  destruct v as [|v]; [|destruct (validate_optional_str _ v)];
    destruct (validate_dict_str_int _ u), (validate_str _ mdl);
    cbn [validate_str errors_of]; eexists; (split; [reflexivity|]);
    rewrite ?in_app_iff; cbn; auto 6.
Qed.

Lemma new_LoomResponse_raises c v u mdl fr e :
  new_LoomResponse c v u mdl fr = Raise e -> kind_of e = ResponseValidationError.
Proof.
  unfold new_LoomResponse.
  destruct v as [|v]; [|destruct (validate_optional_str _ v)];
    destruct (validate_dict_str_int _ u), (validate_str _ mdl);
    (destruct fr as [|fr]; [|destruct (validate_str _ fr)]);
    intros H; inversion H; reflexivity.
Qed.

(** A call that passed the checks and got a full reply returns what the
    constructor of [LoomResponse] makes of it. *)
Lemma generate_on_full_reply sp up t mt er st m fr rest p cm tot ux mdl :
  preconditions sp up t = true ->
  OpenAI.create (client (self st)) (generate_kwargs (self st) sp up t mt er)
  = Return (full_reply m fr rest p cm tot ux mdl) ->
  generate sp up t mt er st =
  (new_LoomResponse (str_or (OpenAI.content m) [])
     (Given (extract_reasoning_content (Some m)))
     [ (lit "prompt_tokens", Some p); (lit "completion_tokens", Some cm);
       (lit "total_tokens", Some tot) ]
     (Some mdl) (Given (Some fr)),
   sent (generate_kwargs (self st) sp up t mt er) st).
Proof.
  intros H Hc. rewrite generate_accepted by assumption.
  unfold try_except, bind, get_self, chat_completions_create.
  rewrite Hc. cbn.
  destruct (new_LoomResponse _ _ _ _ _) as [r|e] eqn:E; [reflexivity|].
  apply new_LoomResponse_raises in E. destruct e; try discriminate E.
  reflexivity.
Qed.

(** [d.get(key)] finds the value under [key]: the entry of [key] that no
    other entry of [key] precedes. *)
Lemma dict_get_entry key before v after :
  ~ In key (List.map fst before) ->
  dict_get key (before ++ (key, v) :: after) = v.
Proof.
  induction before as [|[k w] before IH]; cbn [app dict_get List.map fst In].
  - intros _. unfold pystr_eqb.
    destruct (list_eq_dec N.eq_dec key key) as [_|N]; [reflexivity|].
    contradiction N. reflexivity.
  - intros H. unfold pystr_eqb at 1.
    destruct (list_eq_dec N.eq_dec k key) as [E|_].
    + contradiction H. left. exact E.
    + apply IH. intros Hin. apply H. right. exact Hin.
Qed.

(** [d.get(key)] is [None] on a [dict] without [key]. *)
Lemma dict_get_absent key d :
  ~ In key (List.map fst d) -> dict_get key d = PNone.
Proof.
  induction d as [|[k w] d IH]; cbn [dict_get List.map fst In];
    [reflexivity|].
  intros H. unfold pystr_eqb at 1.
  destruct (list_eq_dec N.eq_dec k key) as [E|_].
  - contradiction H. left. exact E.
  - apply IH. intros Hin. apply H. right. exact Hin.
Qed.

(** C7. On a full reply, [generate] returns a result whose reasoning is the
    text of the dedicated field when that field holds text, whatever the map
    of extra fields holds; when the dedicated field is missing, [None] or
    empty, the text that the map of extra fields holds under
    [reasoning_content], wherever in the map that entry stands; and when the
    dedicated field is missing or [None] and the map is missing, has no such
    entry or holds [None] there, the call still returns, with no
    reasoning. *)
Theorem generate_reasoning sp up t mt er st m fr rest p cm tot ux mdl :
  preconditions sp up t = true ->
  OpenAI.create (client (self st)) (generate_kwargs (self st) sp up t mt er)
  = Return (full_reply m fr rest p cm tot ux mdl) ->
  (forall s,
      OpenAI.reasoning_content m = Some (PStr s) -> s <> [] ->
      exists r, generate sp up t mt er st
                = (Return r, sent (generate_kwargs (self st) sp up t mt er) st)
                /\ reasoning r = Some s)
  /\
  (forall before after s,
      OpenAI.reasoning_content m = None
      \/ OpenAI.reasoning_content m = Some PNone
      \/ OpenAI.reasoning_content m = Some (PStr []) ->
      OpenAI.model_extra m
      = Some (before ++ (lit "reasoning_content", PStr s) :: after) ->
      ~ In (lit "reasoning_content") (List.map fst before) ->
      exists r, generate sp up t mt er st
                = (Return r, sent (generate_kwargs (self st) sp up t mt er) st)
                /\ reasoning r = Some s)
  /\
  (OpenAI.reasoning_content m = None
   \/ OpenAI.reasoning_content m = Some PNone ->
   OpenAI.model_extra m = None
   \/ (exists extra,
         OpenAI.model_extra m = Some extra
         /\ (~ In (lit "reasoning_content") (List.map fst extra)
             \/ exists before after,
                  extra = before ++ (lit "reasoning_content", PNone) :: after
                  /\ ~ In (lit "reasoning_content") (List.map fst before))) ->
   exists r, generate sp up t mt er st
             = (Return r, sent (generate_kwargs (self st) sp up t mt er) st)
             /\ reasoning r = None).
Proof.
  intros H Hc.
  rewrite (generate_on_full_reply _ _ _ _ _ _ _ _ _ _ _ _ _ _ H Hc).
  split; [|split].
  - intros s Hd Hs.
    assert (E : extract_reasoning_content (Some m) = PStr s).
    { unfold extract_reasoning_content, getattr_or_none. rewrite Hd.
      destruct s; [contradiction|]. reflexivity. }
    rewrite E, new_LoomResponse_full by reflexivity.
    eexists. split; reflexivity.
  - intros before after s Hd Hx Hb.
    assert (E : extract_reasoning_content (Some m) = PStr s).
    { unfold extract_reasoning_content, getattr_or_none. rewrite Hx.
      destruct Hd as [Hd|[Hd|Hd]]; rewrite Hd; cbn [truthy str_truthy negb];
        exact (dict_get_entry _ before (PStr s) after Hb). }
    rewrite E, new_LoomResponse_full by reflexivity.
    eexists. split; reflexivity.
  - intros Hd Hx.
    assert (E : extract_reasoning_content (Some m) = PNone).
    { unfold extract_reasoning_content, getattr_or_none.
      destruct Hx as [Hx|(extra & Hx & [Ha|(before & after & -> & Hb)])];
        rewrite Hx; destruct Hd as [Hd|Hd]; rewrite Hd;
        cbn [truthy negb]; try reflexivity.
      - exact (dict_get_absent _ extra Ha).
      - exact (dict_get_absent _ extra Ha).
      - exact (dict_get_entry _ before PNone after Hb).
      - exact (dict_get_entry _ before PNone after Hb). }
    rewrite E, new_LoomResponse_full by reflexivity.
    eexists. split; reflexivity.
Qed.

(** C8. On a full reply whose reasoning validates, [generate] returns a
    result whose token usage is the three counters of the reply's usage
    report, under their three names and nothing else; the further fields
    [ux] of the usage report, whatever they are, appear nowhere in the
    result and do not make the call fail. *)
Theorem generate_token_usage sp up t mt er st m fr rest p cm tot ux mdl :
  preconditions sp up t = true ->
  OpenAI.create (client (self st)) (generate_kwargs (self st) sp up t mt er)
  = Return (full_reply m fr rest p cm tot ux mdl) ->
  is_text_or_none (extract_reasoning_content (Some m)) = true ->
  generate sp up t mt er st
  = (Return {| content := str_or (OpenAI.content m) [];
               reasoning := text_of (extract_reasoning_content (Some m));
               token_usage := [ (lit "prompt_tokens", p);
                                (lit "completion_tokens", cm);
                                (lit "total_tokens", tot) ];
               model_used := mdl; finish_reason := fr |},
     sent (generate_kwargs (self st) sp up t mt er) st).
Proof.
  intros H Hc Hr.
  rewrite (generate_on_full_reply _ _ _ _ _ _ _ _ _ _ _ _ _ _ H Hc).
  rewrite new_LoomResponse_full by assumption. reflexivity.
Qed.

(** ** Failures *)

(** A call that fails a check raises a [ValueError] and leaves the state
    as it was. *)
Lemma generate_rejected sp up t mt er st :
  preconditions sp up t = false ->
  exists msg, generate sp up t mt er st = (Raise (ValueError msg), st).
Proof.
  unfold preconditions, generate. intros H.
  destruct (str_truthy (strip sp)); cbn [negb andb] in *; [|eexists; reflexivity].
  destruct (str_truthy (strip up)); cbn [negb andb] in *; [|eexists; reflexivity].
  rewrite H. cbn [negb]. eexists; reflexivity.
Qed.

(** C3, as the code has it.  When [generate] fails with a connection
    failure, a status error or a validation error, exactly one request was
    given to the transport and the client is as it was.  A connection
    failure and a status error are the very exception the transport raised,
    and one line was printed before it was raised again.  A validation
    error leaves the printed output as it was. *)
Theorem generate_failure_handling sp up t mt er st e st' :
  generate sp up t mt er st = (Raise e, st') ->
  kind_of e = ConnectionFailure \/ kind_of e = ServerStatusError
  \/ kind_of e = ResponseValidationError ->
  wire st' = wire st ++ [generate_kwargs (self st) sp up t mt er]
  /\ self st' = self st
  /\ (kind_of e = ConnectionFailure ->
      OpenAI.create (client (self st)) (generate_kwargs (self st) sp up t mt er)
      = Raise e
      /\ stdout st' = stdout st ++
           [lit "Loom Connection Error: Could not reach "
              ++ OpenAI.base_url (client (self st))])
  /\ (forall m code, e = APIStatusError m code ->
      OpenAI.create (client (self st)) (generate_kwargs (self st) sp up t mt er)
      = Raise e
      /\ stdout st' = stdout st ++
           [lit "Loom Status Error: Server returned " ++ int_str code])
  /\ (kind_of e = ResponseValidationError -> stdout st' = stdout st).
Proof.
  intros Hg Hk.
  destruct (preconditions sp up t) eqn:Hp.
  - rewrite generate_accepted in Hg by assumption.
    unfold try_except, bind, get_self, chat_completions_create in Hg.
    destruct (OpenAI.create _ _) as [response|e0].
    + cbn [fst snd] in Hg.
      assert (Hv : st' = sent (generate_kwargs (self st) sp up t mt er) st
                   /\ kind_of e <> ConnectionFailure
                   /\ kind_of e <> ServerStatusError).
      { destruct (OpenAI.choices response) as [[|choice rest]|]; cbn in Hg.
        1,3:(inversion Hg; subst; cbn; repeat split; discriminate).
        destruct (OpenAI.usage response) as [u|]; cbn in Hg.
        2:{ inversion Hg; subst. cbn. repeat split; discriminate. }
        destruct (OpenAI.message choice) as [message|]; cbn in Hg.
        2:{ inversion Hg; subst. cbn. repeat split; discriminate. }
        unfold lift in Hg.
        destruct (new_LoomResponse _ _ _ _ _) as [r|e1] eqn:E; [discriminate|].
        apply new_LoomResponse_raises in E.
        destruct e1; try discriminate E. cbn in Hg. inversion Hg; subst.
        cbn. repeat split; discriminate. }
      destruct Hv as (-> & Hn1 & Hn2).
      split; [reflexivity|]. split; [reflexivity|].
      split; [intros Hk1; contradiction|].
      split; [|intros _; reflexivity].
      intros m0 code0 ->. exfalso. apply Hn2. reflexivity.
    + destruct e0; cbn in Hg; inversion Hg; subst; cbn;
        (split; [reflexivity|]); (split; [reflexivity|]);
        (split; [intros Hk1; try discriminate Hk1; split; reflexivity|]);
        (split; [intros m0 code0 Hm; try discriminate Hm;
                 inversion Hm; subst; split; reflexivity|]);
        intros Hk3; try discriminate Hk3; reflexivity.
  - destruct (generate_rejected sp up t mt er st Hp) as [msg Hr].
    rewrite Hr in Hg. inversion Hg; subst. cbn in Hk.
    destruct Hk as [Hk|[Hk|Hk]]; discriminate.
Qed.

(** Whatever else a reply holds, one whose first choice has no finish
    reason makes [generate] fail: it never returns a result. *)
Lemma generate_without_finish_reason sp up t mt er st response message rest :
  OpenAI.create (client (self st)) (generate_kwargs (self st) sp up t mt er)
  = Return response ->
  OpenAI.choices response
  = Some ({| OpenAI.message := message; OpenAI.finish_reason := None |} :: rest) ->
  forall r, fst (generate sp up t mt er st) <> Return r.
Proof.
  intros Hc Hch r.
  destruct (preconditions sp up t) eqn:Hp.
  - rewrite generate_accepted by assumption.
    unfold try_except, bind, get_self, chat_completions_create.
    rewrite Hc. cbn [fst snd]. rewrite Hch. cbn.
    destruct (OpenAI.usage response) as [u|]; cbn; [|discriminate].
    destruct message as [message|]; cbn; [|discriminate].
    unfold lift.
    destruct (new_LoomResponse_finish_reason_None
                (str_or (OpenAI.content message) [])
                (Given (extract_reasoning_content (Some message)))
                [ (lit "prompt_tokens", OpenAI.prompt_tokens u);
                  (lit "completion_tokens", OpenAI.completion_tokens u);
                  (lit "total_tokens", OpenAI.total_tokens u) ]
                (OpenAI.model response)) as [es [E _]].
    rewrite E. cbn. discriminate.
  - destruct (generate_rejected sp up t mt er st Hp) as [msg Hr].
    rewrite Hr. discriminate.
Qed.

(** ** Determinism *)

(** C9. Two calls of [generate] with the same arguments, on clients with
    the same model name whose transports answer the request alike, end
    alike: they return the same result or raise the same exception. *)
Theorem generate_deterministic sp up t mt er st1 st2 :
  model_name (self st1) = model_name (self st2) ->
  OpenAI.create (client (self st1)) (generate_kwargs (self st1) sp up t mt er)
  = OpenAI.create (client (self st2)) (generate_kwargs (self st2) sp up t mt er) ->
  fst (generate sp up t mt er st1) = fst (generate sp up t mt er st2).
Proof.
  intros Hm Hc.
  destruct (preconditions sp up t) eqn:Hp.
  - rewrite !generate_accepted by assumption.
    unfold try_except, bind, get_self, chat_completions_create.
    rewrite Hc. clear Hc.
    destruct (OpenAI.create _ _) as [response|e]; cbn [fst snd].
    + destruct (OpenAI.choices response) as [[|choice rest]|]; cbn;
        try reflexivity.
      destruct (OpenAI.usage response) as [u|]; cbn; [|reflexivity].
      destruct (OpenAI.message choice) as [message|]; cbn; [|reflexivity].
      unfold lift.
      destruct (new_LoomResponse _ _ _ _ _) as [r|e] eqn:E; [reflexivity|].
      apply new_LoomResponse_raises in E. destruct e; try discriminate E.
      reflexivity.
    + destruct e; reflexivity.
  - unfold preconditions in Hp. unfold generate.
    destruct (str_truthy (strip sp)); cbn [negb andb] in *; [|reflexivity].
    destruct (str_truthy (strip up)); cbn [negb andb] in *; [|reflexivity].
    rewrite Hp. reflexivity.
Qed.

(** ** [generate_structured] *)

(** [generate_structured] checks nothing before the round trip: whatever
    the prompts are, its request is put on the wire. *)
Lemma generate_structured_always_sends sp up rm t st :
  wire (snd (generate_structured sp up rm t st))
  = wire st ++ [generate_structured_kwargs (self st) sp up rm t]
  /\ self (snd (generate_structured sp up rm t st)) = self st.
Proof.
  unfold generate_structured, try_except, bind, get_self,
    chat_completions_create.
  destruct (OpenAI.create _ _) as [response|e]; cbn [fst snd].
  - destruct (OpenAI.choices response) as [[|choice rest]|]; cbn; auto.
    destruct (OpenAI.message choice) as [message|]; cbn; auto.
    unfold lift.
    destruct (model_validate_json rm _) as [v|e]; [|destruct e]; cbn; auto.
  - destruct e; cbn; auto.
Qed.

(** Once the reply is read, the call ends as the validation of its content
    ends, an absent or empty content being replaced by the text of the
    empty object. *)
Lemma generate_structured_on_reply sp up rm t st response choice rest message :
  OpenAI.create (client (self st)) (generate_structured_kwargs (self st) sp up rm t)
  = Return response ->
  OpenAI.choices response = Some (choice :: rest) ->
  OpenAI.message choice = Some message ->
  fst (generate_structured sp up rm t st)
  = model_validate_json rm (str_or (OpenAI.content message) (lit "{}")).
Proof.
  intros Hc Hch Hm.
  unfold generate_structured, try_except, bind, get_self,
    chat_completions_create.
  rewrite Hc. cbn [fst snd]. rewrite Hch. cbn. rewrite Hm. cbn. unfold lift.
  destruct (model_validate_json rm _) as [v|e]; [|destruct e]; reflexivity.
Qed.

Lemma json_loads_empty_object :
  Pydantic.json_loads (lit "{}") = Some (Pydantic.JObject []).
Proof. vm_compute. reflexivity. Qed.

Lemma json_loads_empty_text : Pydantic.json_loads [] = None.
Proof. vm_compute. reflexivity. Qed.

(** The empty text is not a JSON document: validating it is an error of
    type [json_invalid], whatever the fields are. *)
Lemma validate_json_empty_text title fields :
  Pydantic.validate_json title fields []
  = Raise (ValidationError title [{| loc := []; type_ := lit "json_invalid" |}]).
Proof. unfold Pydantic.validate_json. rewrite json_loads_empty_text. reflexivity. Qed.

(** Validating the empty object: each field takes its default, and each
    field without one is reported missing. *)
Lemma validate_fields_nil fields :
  match Pydantic.validate_fields fields [] with
  | inr inst =>
      List.map (fun kv => (fst kv, Some (snd kv))) inst
      = List.map (fun f => (Pydantic.name f, Pydantic.default f)) fields
  | inl es =>
      es = List.map (fun f => {| loc := [Pydantic.name f]; type_ := lit "missing" |})
             (List.filter Pydantic.required fields)
      /\ es <> []
  end.
Proof.
  induction fields as [|f fs IH]; [reflexivity|].
  cbn [Pydantic.validate_fields List.filter].
  unfold Pydantic.validate_field, Pydantic.required. cbn [Pydantic.lookup].
  fold Pydantic.required.
  destruct (Pydantic.default f) as [d|] eqn:Hd;
    destruct (Pydantic.validate_fields fs []) as [es|inst];
    cbn [errors_of List.map app fst snd].
  - exact IH.
  - rewrite Hd, IH. reflexivity.
  - destruct IH as [-> _]. split; [reflexivity|discriminate].
  - split; [|discriminate].
    f_equal.
    assert (E : List.filter Pydantic.required fs = []).
    { clear -IH. revert inst IH.
      induction fs as [|g gs IHg]; intros inst IH; [reflexivity|].
      destruct inst as [|kv inst]; [discriminate|].
      cbn in IH. inversion IH as [[H1 H2 H3]].
      cbn. unfold Pydantic.required at 1. rewrite <- H2.
      apply (IHg inst H3). }
    rewrite E. reflexivity.
Qed.

(** C10. When the content of the reply is absent or the empty string,
    [generate_structured] ends as the validation of the text of the empty
    object against the caller's model class ends.  For a class declared by
    its fields this means: if every field has a default the call returns
    the instance made of the defaults, and if some field has none the call
    raises a validation error that reports the missing fields (and is not a
    JSON parse error). *)
Theorem generate_structured_empty_content sp up rm t st response message fr rest :
  OpenAI.create (client (self st)) (generate_structured_kwargs (self st) sp up rm t)
  = Return response ->
  OpenAI.choices response
  = Some ({| OpenAI.message := Some message; OpenAI.finish_reason := fr |}
          :: rest) ->
  OpenAI.content message = None \/ OpenAI.content message = Some [] ->
  fst (generate_structured sp up rm t st) = model_validate_json rm (lit "{}")
  /\
  (forall title schema fields,
      rm = Pydantic.BaseModel title schema fields ->
      (forall f, In f fields -> Pydantic.default f <> None) ->
      exists inst,
        fst (generate_structured sp up rm t st) = Return inst
        /\ List.map (fun kv => (fst kv, Some (snd kv))) inst
           = List.map (fun f => (Pydantic.name f, Pydantic.default f)) fields)
  /\
  (forall title schema fields,
      rm = Pydantic.BaseModel title schema fields ->
      (exists f, In f fields /\ Pydantic.default f = None) ->
      exists es,
        fst (generate_structured sp up rm t st) = Raise (ValidationError title es)
        /\ es = List.map (fun f => {| loc := [Pydantic.name f];
                                      type_ := lit "missing" |})
                  (List.filter Pydantic.required fields)
        /\ es <> []).
Proof.
  intros Hc Hch Hcontent.
  assert (E : fst (generate_structured sp up rm t st)
              = model_validate_json rm (lit "{}")).
  { rewrite (generate_structured_on_reply _ _ _ _ _ _ _ _ message Hc Hch eq_refl).
    destruct Hcontent as [-> | ->]; reflexivity. }
  split; [exact E|]. rewrite E. split.
  - intros title schema fields -> Hall.
    cbn [model_validate_json Pydantic.BaseModel]. unfold Pydantic.validate_json.
    rewrite json_loads_empty_object.
    pose proof (validate_fields_nil fields) as Hv.
    destruct (Pydantic.validate_fields fields []) as [es|inst].
    + exfalso. destruct Hv as [-> Hne]. apply Hne.
      clear -Hall. induction fields as [|f fs IH]; [reflexivity|].
      cbn. unfold Pydantic.required at 1.
      destruct (Pydantic.default f) eqn:Hd.
      * apply IH. intros g Hg. apply Hall. right. exact Hg.
      * exfalso. apply (Hall f); [left; reflexivity | exact Hd].
    + exists inst. split; [reflexivity | exact Hv].
  - intros title schema fields -> [f [Hin Hd]].
    cbn [model_validate_json Pydantic.BaseModel]. unfold Pydantic.validate_json.
    rewrite json_loads_empty_object.
    pose proof (validate_fields_nil fields) as Hv.
    destruct (Pydantic.validate_fields fields []) as [es|inst].
    + exists es. split; [reflexivity | exact Hv].
    + exfalso.
      assert (Hm : In (Pydantic.name f, Pydantic.default f)
                     (List.map (fun f => (Pydantic.name f, Pydantic.default f)) fields)).
      { apply in_map_iff. exists f. auto. }
      rewrite <- Hv, Hd in Hm. apply in_map_iff in Hm.
      destruct Hm as [kv [Hkv _]]. discriminate Hkv.
Qed.

(** * Further properties of the code *)

(** ** [generate]: when it returns, and what it leaves behind *)

Lemma app_one_neq {A} (l : list A) (x : A) : l ++ [x] <> l.
Proof.
  intros H. apply (f_equal (@List.length A)) in H.
  rewrite length_app in H. cbn in H. lia.
Qed.

(** When [generate] returns: the reply it got and the result it built. *)
Lemma generate_returns sp up t mt er st r st' :
  generate sp up t mt er st = (Return r, st') ->
  preconditions sp up t = true
  /\ st' = sent (generate_kwargs (self st) sp up t mt er) st
  /\ exists m fr rest p cm tot ux mdl,
       OpenAI.create (client (self st)) (generate_kwargs (self st) sp up t mt er)
       = Return (full_reply m fr rest p cm tot ux mdl)
       /\ is_text_or_none (extract_reasoning_content (Some m)) = true
       /\ r = {| content := str_or (OpenAI.content m) [];
                 reasoning := text_of (extract_reasoning_content (Some m));
                 token_usage := [ (lit "prompt_tokens", p);
                                  (lit "completion_tokens", cm);
                                  (lit "total_tokens", tot) ];
                 model_used := mdl; finish_reason := fr |}.
Proof.
  intros Hg.
  destruct (preconditions sp up t) eqn:Hp.
  2:{ destruct (generate_rejected sp up t mt er st Hp) as [msg Hr].
      rewrite Hr in Hg. discriminate Hg. }
  split; [reflexivity|].
  rewrite generate_accepted in Hg by assumption.
  unfold try_except, bind, get_self, chat_completions_create in Hg.
  destruct (OpenAI.create _ _) as [response|e0]; cbn [fst snd] in Hg.
  2:{ destruct e0; cbn in Hg; discriminate Hg. }
  destruct response as [chs us mdl0]. cbn [OpenAI.choices OpenAI.usage OpenAI.model] in Hg.
  destruct chs as [[|[m fr0] rest]|]; cbn in Hg; try discriminate Hg.
  destruct us as [[p0 c0 t0 ux]|]; cbn in Hg; [|discriminate Hg].
  destruct m as [m|]; cbn in Hg; [|discriminate Hg].
  unfold lift in Hg.
  destruct (new_LoomResponse _ _ _ _ _) as [r0|e1] eqn:E.
  2:{ apply new_LoomResponse_raises in E. destruct e1; try discriminate E.
      cbn in Hg. discriminate Hg. }
  inversion Hg; subst r0 st'. clear Hg.
  split; [reflexivity|].
  unfold new_LoomResponse in E. cbn [validate_dict_str_int] in E.
  destruct (extract_reasoning_content (Some m)) as [| | | |s| |] eqn:Hr;
    cbn [validate_optional_str] in E;
    destruct p0 as [p|], c0 as [cm|], t0 as [tot|], mdl0 as [mdl|], fr0 as [fr|];
    cbn in E; try discriminate E;
    inversion E; subst r;
    exists m, fr, rest, p, cm, tot, ux, mdl;
    (split; [reflexivity|]); rewrite Hr; split; reflexivity.
Qed.

(** X1. [generate] returns a result only when its three checks passed and
    the transport returned a reply with a first choice, a finish reason, the
    three usage counters, a model name, and a reasoning that is text or
    [None]; the result is then built from exactly those fields, one request
    was sent, nothing was printed and the client is as it was. *)
Theorem generate_return_inversion sp up t mt er st r st' :
  generate sp up t mt er st = (Return r, st') ->
  preconditions sp up t = true
  /\ self st' = self st
  /\ wire st' = wire st ++ [generate_kwargs (self st) sp up t mt er]
  /\ stdout st' = stdout st
  /\ exists m fr rest p cm tot ux mdl,
       OpenAI.create (client (self st)) (generate_kwargs (self st) sp up t mt er)
       = Return (full_reply m fr rest p cm tot ux mdl)
       /\ is_text_or_none (extract_reasoning_content (Some m)) = true
       /\ r = {| content := str_or (OpenAI.content m) [];
                 reasoning := text_of (extract_reasoning_content (Some m));
                 token_usage := [ (lit "prompt_tokens", p);
                                  (lit "completion_tokens", cm);
                                  (lit "total_tokens", tot) ];
                 model_used := mdl; finish_reason := fr |}.
Proof.
  intros Hg. destruct (generate_returns _ _ _ _ _ _ _ _ Hg) as (Hp & -> & Hex).
  split; [exact Hp|]. cbn [sent self wire stdout]. auto.
Qed.

(** X2. In a call that passed the checks, whatever exception the transport
    raises is the exception [generate] raises: nothing is swallowed or
    replaced.  One request was sent, and the printed output is left as it was
    exactly when the exception is neither a connection failure nor a status
    error. *)
Theorem generate_propagates_transport_exception sp up t mt er st e :
  preconditions sp up t = true ->
  OpenAI.create (client (self st)) (generate_kwargs (self st) sp up t mt er)
  = Raise e ->
  fst (generate sp up t mt er st) = Raise e
  /\ wire (snd (generate sp up t mt er st))
     = wire st ++ [generate_kwargs (self st) sp up t mt er]
  /\ (stdout (snd (generate sp up t mt er st)) = stdout st
      <-> kind_of e <> ConnectionFailure /\ kind_of e <> ServerStatusError).
Proof.
  intros Hp Hc. rewrite generate_accepted by assumption.
  unfold try_except, bind, get_self, chat_completions_create.
  rewrite Hc. cbn [fst snd].
  destruct e; cbn; (split; [reflexivity|]); (split; [reflexivity|]);
    split; try (intros _; split; discriminate); try reflexivity;
    try (intros H; exfalso; exact (app_one_neq _ _ H));
    intros [H1 H2]; exfalso; try (apply H1; reflexivity); apply H2; reflexivity.
Qed.

(** X3. A reply without any choice (its list of choices is empty) makes
    [generate] raise [IndexError], and a reply with a choice but without a
    usage report makes it raise [AttributeError] on [prompt_tokens]; neither
    is caught, nothing is printed, and the request was sent once. *)
Theorem generate_reply_without_choices_or_usage sp up t mt er st response :
  preconditions sp up t = true ->
  OpenAI.create (client (self st)) (generate_kwargs (self st) sp up t mt er)
  = Return response ->
  (OpenAI.choices response = Some [] ->
   generate sp up t mt er st
   = (Raise (IndexError (lit "list index out of range")),
      sent (generate_kwargs (self st) sp up t mt er) st))
  /\
  (forall choice rest,
   OpenAI.choices response = Some (choice :: rest) ->
   OpenAI.usage response = None ->
   generate sp up t mt er st
   = (Raise (AttributeError
               (lit "'NoneType' object has no attribute 'prompt_tokens'")),
      sent (generate_kwargs (self st) sp up t mt er) st)).
Proof.
  intros Hp Hc. rewrite generate_accepted by assumption.
  unfold try_except, bind, get_self, chat_completions_create.
  rewrite Hc. cbn [fst snd]. split.
  - intros ->. reflexivity.
  - intros choice rest -> Hu.
    rewrite Hu. vm_compute. reflexivity.
Qed.

(** X4. What any call of [generate] leaves behind: the client is as it was;
    the request list is as it was exactly when a check failed, and otherwise
    has grown by the one request of the call; at most one line was printed. *)
Theorem generate_frame sp up t mt er st :
  self (snd (generate sp up t mt er st)) = self st
  /\ (wire (snd (generate sp up t mt er st)) = wire st
      <-> preconditions sp up t = false)
  /\ (wire (snd (generate sp up t mt er st)) = wire st
      \/ wire (snd (generate sp up t mt er st))
         = wire st ++ [generate_kwargs (self st) sp up t mt er])
  /\ (stdout (snd (generate sp up t mt er st)) = stdout st
      \/ exists line, stdout (snd (generate sp up t mt er st)) = stdout st ++ [line]).
Proof.
  destruct (preconditions sp up t) eqn:Hp.
  - destruct (generate_accepted_wire sp up t mt er st Hp) as [Hw Hs].
    split; [exact Hs|]. split.
    + rewrite Hw. split; [intros H; exfalso; exact (app_one_neq _ _ H)|discriminate].
    + split; [right; exact Hw|].
      rewrite generate_accepted by assumption.
      unfold try_except, bind, get_self, chat_completions_create.
      destruct (OpenAI.create _ _) as [response|e]; cbn [fst snd].
      * destruct (OpenAI.choices response) as [[|choice rest]|]; cbn; auto.
        destruct (OpenAI.usage response) as [u|]; cbn; auto.
        destruct (OpenAI.message choice) as [message|]; cbn; auto.
        unfold lift.
        destruct (new_LoomResponse _ _ _ _ _) as [r|e] eqn:E; cbn; auto.
        apply new_LoomResponse_raises in E. destruct e; try discriminate E.
        cbn. auto.
      * destruct e; cbn; eauto.
  - destruct (generate_rejected sp up t mt er st Hp) as [msg Hr].
    rewrite Hr. cbn. repeat split; auto.
Qed.

(** X5. A full reply whose content is absent or empty gives a result whose
    content is the empty string: the call does not fail for lack of text. *)
Theorem generate_empty_content sp up t mt er st m fr rest p cm tot ux mdl :
  preconditions sp up t = true ->
  OpenAI.create (client (self st)) (generate_kwargs (self st) sp up t mt er)
  = Return (full_reply m fr rest p cm tot ux mdl) ->
  is_text_or_none (extract_reasoning_content (Some m)) = true ->
  OpenAI.content m = None \/ OpenAI.content m = Some [] ->
  exists r,
    generate sp up t mt er st
    = (Return r, sent (generate_kwargs (self st) sp up t mt er) st)
    /\ content r = [] /\ finish_reason r = fr.
Proof.
  intros Hp Hc Hr Hcontent.
  rewrite (generate_on_full_reply _ _ _ _ _ _ _ _ _ _ _ _ _ _ Hp Hc).
  rewrite new_LoomResponse_full by assumption.
  eexists. split; [reflexivity|]. cbn.
  destruct Hcontent as [-> | ->]; split; reflexivity.
Qed.

(** X6. [generate] refuses a system prompt, before anything is sent, exactly
    when every character of it is a whitespace character in the sense of
    [str.isspace]; this covers the empty prompt and prompts made of
    no-break or ideographic spaces. *)
Theorem generate_rejects_exactly_whitespace_system_prompt sp up t mt er st :
  generate sp up t mt er st
  = (Raise (ValueError (lit "Pre-condition failed: system_prompt cannot be empty.")),
     st)
  <-> forallb isspace sp = true.
Proof.
  rewrite <- strip_nil_iff. split.
  - intros Hg.
    destruct (list_eq_dec N.eq_dec (strip sp) []) as [Hs|Hs]; [exact Hs|].
    exfalso.
    destruct (list_eq_dec N.eq_dec (strip up) []) as [Hu|Hu].
    { rewrite (generate_blank_user_prompt _ _ _ _ _ _ Hs Hu) in Hg.
      apply (f_equal fst) in Hg. vm_compute in Hg. discriminate Hg. }
    destruct ((0 <=? t)%float && (t <=? 2)%float) eqn:Ht.
    + assert (Hp : preconditions sp up t = true).
      { apply preconditions_true. apply andb_true_iff in Ht. tauto. }
      pose proof (generate_accepted_wire sp up t mt er st Hp) as [Hw _].
      rewrite Hg in Hw. cbn in Hw. symmetry in Hw.
      exact (app_one_neq _ _ Hw).
    + rewrite (generate_bad_temperature _ _ _ _ _ _ Hs Hu Ht) in Hg.
      apply (f_equal fst) in Hg. vm_compute in Hg. discriminate Hg.
  - apply generate_blank_system_prompt.
Qed.

(** ** The benchmark's total over results of [generate] *)

Lemma sum_completion_tokens_spec acc results counts :
  Forall2 (fun r c => dict_getitem (lit "completion_tokens") (token_usage r)
                      = Return c) results counts ->
  sum_completion_tokens acc results = Return (acc + fold_right Z.add 0%Z counts)%Z.
Proof.
  intros H. revert acc.
  induction H as [|r c results counts Hr _ IH]; intros acc; cbn.
  - f_equal. lia.
  - rewrite Hr, IH. f_equal. lia.
Qed.

(** X7. The benchmark's total is defined on everything [generate] returns:
    for results that are each the return value of some call of [generate],
    looking up [completion_tokens] never raises [KeyError], and the total is
    the sum of the completion counters carried by the results. *)
Theorem total_generated_tokens_of_generate results :
  Forall (fun r => exists sp up t mt er st st',
                     generate sp up t mt er st = (Return r, st')) results ->
  exists counts,
    Forall2 (fun r c => In (lit "completion_tokens", c) (token_usage r))
      results counts
    /\ total_generated_tokens results = Return (fold_right Z.add 0%Z counts).
Proof.
  intros H.
  assert (Hc : exists counts,
             Forall2 (fun r c => In (lit "completion_tokens", c) (token_usage r)
                                 /\ dict_getitem (lit "completion_tokens")
                                      (token_usage r) = Return c)
               results counts).
  { induction H as [|r results Hr _ [counts IH]].
    - exists []. constructor.
    - destruct Hr as (sp & up & t & mt & er & st & st' & Hg).
      apply generate_returns in Hg.
      destruct Hg as (_ & _ & m & fr & rest & p & cm & tot & ux & mdl & _ & _ & ->).
      exists (cm :: counts). constructor; [|exact IH].
      split; [cbn; auto | vm_compute; reflexivity]. }
  destruct Hc as [counts Hc]. exists counts. split.
  - eapply Forall2_impl; [|exact Hc]. intros r c [Hin _]. exact Hin.
  - unfold total_generated_tokens.
    rewrite (sum_completion_tokens_spec 0 results counts).
    + reflexivity.
    + eapply Forall2_impl; [|exact Hc]. intros r c [_ Hd]. exact Hd.
Qed.

(** ** [generate_structured]: outcomes, failures and the request *)

Lemma contains_skip (x a b : pystr) :
  contains x b = true -> contains x (a ++ b) = true.
Proof.
  intros H. induction a as [|c a IH]; [exact H|].
  cbn [app contains]. rewrite IH. apply orb_true_r.
Qed.

Lemma contains_prefix (x b : pystr) : contains x (x ++ b) = true.
Proof.
  destruct (x ++ b) eqn:E; cbn [contains]; rewrite <- E, startswith_app;
    reflexivity.
Qed.

(** When [generate_structured] returns: the reply it got. *)
Lemma generate_structured_returns sp up rm t st inst st' :
  generate_structured sp up rm t st = (Return inst, st') ->
  st' = sent (generate_structured_kwargs (self st) sp up rm t) st
  /\ exists response choice rest message,
       OpenAI.create (client (self st))
         (generate_structured_kwargs (self st) sp up rm t) = Return response
       /\ OpenAI.choices response = Some (choice :: rest)
       /\ OpenAI.message choice = Some message
       /\ model_validate_json rm (str_or (OpenAI.content message) (lit "{}"))
          = Return inst.
Proof.
  unfold generate_structured, try_except, bind, get_self,
    chat_completions_create.
  destruct (OpenAI.create _ _) as [response|e]; cbn [fst snd].
  - destruct (OpenAI.choices response) as [[|choice rest]|] eqn:Hch; cbn;
      try discriminate.
    destruct (OpenAI.message choice) as [message|] eqn:Hm; cbn;
      [|discriminate].
    unfold lift.
    destruct (model_validate_json rm _) as [v|e] eqn:Hv.
    + intros H. inversion H; subst. split; [reflexivity|].
      exists response, choice, rest, message. auto.
    + destruct e; cbn; discriminate.
  - destruct e; cbn; discriminate.
Qed.

(** X8. [generate_structured] returns an instance only when the transport
    returned a reply with a first choice that carries a message and the
    validation of its content
    (the text of the empty object standing for an absent or empty content)
    returned that instance; one request was sent, nothing was printed and the
    client is as it was. *)
Theorem generate_structured_return_inversion sp up rm t st inst st' :
  generate_structured sp up rm t st = (Return inst, st') ->
  self st' = self st
  /\ wire st' = wire st ++ [generate_structured_kwargs (self st) sp up rm t]
  /\ stdout st' = stdout st
  /\ exists response choice rest message,
       OpenAI.create (client (self st))
         (generate_structured_kwargs (self st) sp up rm t) = Return response
       /\ OpenAI.choices response = Some (choice :: rest)
       /\ OpenAI.message choice = Some message
       /\ model_validate_json rm (str_or (OpenAI.content message) (lit "{}"))
          = Return inst.
Proof.
  intros Hg.
  destruct (generate_structured_returns _ _ _ _ _ _ _ Hg) as (-> & Hex).
  cbn [sent self wire stdout]. auto.
Qed.

(** X9. When the content of the reply does not validate, [generate_structured]
    prints one line, which ends with the raw content that was validated, and
    raises the very validation error; no second request is made. *)
Theorem generate_structured_validation_failure
    sp up rm t st response choice rest message title es :
  OpenAI.create (client (self st)) (generate_structured_kwargs (self st) sp up rm t)
  = Return response ->
  OpenAI.choices response = Some (choice :: rest) ->
  OpenAI.message choice = Some message ->
  model_validate_json rm (str_or (OpenAI.content message) (lit "{}"))
  = Raise (ValidationError title es) ->
  generate_structured sp up rm t st
  = (Raise (ValidationError title es),
     printed (lit "Loom Validation Error: Model output did not match schema."
                ++ nl ++ lit "Output: "
                ++ str_or (OpenAI.content message) (lit "{}"))
       (sent (generate_structured_kwargs (self st) sp up rm t) st)).
Proof.
  intros Hc Hch Hm Hv.
  unfold generate_structured, try_except, bind, get_self,
    chat_completions_create.
  rewrite Hc. cbn [fst snd]. rewrite Hch. cbn. rewrite Hm. cbn.
  unfold lift. rewrite Hv.
  reflexivity.
Qed.

(** X10. Failures of the transport in [generate_structured]: a status error
    is printed with its code and raised again; a connection failure, a
    timeout or any other exception that is not a validation error is raised
    again without anything being printed.  One request was sent. *)
Theorem generate_structured_transport_failure sp up rm t st e :
  OpenAI.create (client (self st)) (generate_structured_kwargs (self st) sp up rm t)
  = Raise e ->
  (forall title es, e <> ValidationError title es) ->
  fst (generate_structured sp up rm t st) = Raise e
  /\ wire (snd (generate_structured sp up rm t st))
     = wire st ++ [generate_structured_kwargs (self st) sp up rm t]
  /\ (forall m code, e = APIStatusError m code ->
      stdout (snd (generate_structured sp up rm t st))
      = stdout st ++ [lit "Loom Status Error: " ++ int_str code])
  /\ (kind_of e <> ServerStatusError ->
      stdout (snd (generate_structured sp up rm t st)) = stdout st).
Proof.
  intros Hc Hne.
  unfold generate_structured, try_except, bind, get_self,
    chat_completions_create.
  rewrite Hc. cbn [fst snd].
  destruct e; cbn;
    try (exfalso; eapply Hne; reflexivity);
    (split; [reflexivity|]); (split; [reflexivity|]);
    (split; [intros m0 code0 Hm; try discriminate Hm;
             inversion Hm; subst; reflexivity|]);
    intros Hk; try reflexivity; exfalso; apply Hk; reflexivity.
Qed.

(** X11. If the transport itself raises a validation error, the handler of
    [generate_structured] reads the local [content] before it was ever
    assigned: the caller gets an [UnboundLocalError] in place of the
    validation error, and nothing is printed. *)
Theorem generate_structured_unbound_content sp up rm t st title es :
  OpenAI.create (client (self st)) (generate_structured_kwargs (self st) sp up rm t)
  = Raise (ValidationError title es) ->
  exists msg,
    generate_structured sp up rm t st
    = (Raise (UnboundLocalError msg),
       sent (generate_structured_kwargs (self st) sp up rm t) st)
    /\ contains (lit "content") msg = true.
Proof.
  intros Hc.
  unfold generate_structured, try_except, bind, get_self,
    chat_completions_create.
  rewrite Hc. cbn [fst snd]. eexists. split; [reflexivity|].
  vm_compute. reflexivity.
Qed.

(** X12. The request of [generate_structured], for every prompt and every
    temperature: no check is made on the temperature, which is sent as given;
    the system message starts with the caller's system prompt and contains
    the schema of the model class as printed by [json.dumps]; the user
    message is the user prompt itself; the reply is asked for in
    [json_object] format, without token limit or extra body. *)
Theorem generate_structured_request sp up rm t st :
  exists req guided,
    wire (snd (generate_structured sp up rm t st)) = wire st ++ [req]
    /\ OpenAI.kw_messages req
       = [ [(lit "role", lit "system"); (lit "content", guided)];
           [(lit "role", lit "user"); (lit "content", up)] ]
    /\ startswith sp guided = true
    /\ contains (json_dumps float_repr (model_json_schema rm)) guided = true
    /\ OpenAI.kw_temperature req = t
    /\ OpenAI.kw_model req = model_name (self st)
    /\ OpenAI.kw_response_format req = Given [(lit "type", PStr (lit "json_object"))]
    /\ OpenAI.kw_max_tokens req = NotGiven
    /\ OpenAI.kw_extra_body req = NotGiven.
Proof.
  destruct (generate_structured_always_sends sp up rm t st) as [Hw _].
  exists (generate_structured_kwargs (self st) sp up rm t).
  exists (sp ++ nl ++ nl
          ++ lit "You must respond with valid JSON strictly following this schema:"
          ++ nl ++ lit "```json" ++ nl
          ++ json_dumps float_repr (model_json_schema rm) ++ nl
          ++ lit "```" ++ nl
          ++ lit "Do not add any markdown formatting or chatter.").
  split; [exact Hw|]. split; [reflexivity|].
  split; [apply startswith_app|].
  split; [do 7 apply contains_skip; apply contains_prefix|].
  repeat split.
Qed.

(** X13. What any call of [generate_structured] leaves behind: the client is
    as it was, exactly one request was added, whatever the reply or the
    failure (no second attempt is ever made), and at most one line was
    printed. *)
Theorem generate_structured_frame sp up rm t st :
  self (snd (generate_structured sp up rm t st)) = self st
  /\ wire (snd (generate_structured sp up rm t st))
     = wire st ++ [generate_structured_kwargs (self st) sp up rm t]
  /\ (stdout (snd (generate_structured sp up rm t st)) = stdout st
      \/ exists line,
           stdout (snd (generate_structured sp up rm t st)) = stdout st ++ [line]).
Proof.
  destruct (generate_structured_always_sends sp up rm t st) as [Hw Hs].
  split; [exact Hs|]. split; [exact Hw|].
  unfold generate_structured, try_except, bind, get_self,
    chat_completions_create.
  destruct (OpenAI.create _ _) as [response|e]; cbn [fst snd].
  - destruct (OpenAI.choices response) as [[|choice rest]|]; cbn; auto.
    destruct (OpenAI.message choice) as [message|]; cbn; auto.
    unfold lift.
    destruct (model_validate_json rm _) as [v|e]; [|destruct e]; cbn; eauto.
  - destruct e; cbn; eauto.
Qed.

(** ** [generate_structured] on model classes declared by their fields *)

Lemma skip_ws_all_ws (s : pystr) :
  forallb Pydantic.is_ws s = true -> Pydantic.skip_ws s = [].
Proof.
  induction s as [|c s IH]; cbn; [reflexivity|].
  destruct (Pydantic.is_ws c); cbn; [exact IH | discriminate].
Qed.

Lemma json_loads_all_ws (s : pystr) :
  forallb Pydantic.is_ws s = true -> Pydantic.json_loads s = None.
Proof.
  intros H. unfold Pydantic.json_loads. cbn [Pydantic.value].
  rewrite (skip_ws_all_ws s H). reflexivity.
Qed.

Lemma validate_fields_names fields ms inst :
  Pydantic.validate_fields fields ms = inr inst ->
  List.map fst inst = List.map Pydantic.name fields.
Proof.
  revert inst. induction fields as [|f fs IH]; cbn [Pydantic.validate_fields];
    intros inst H.
  - inversion H. reflexivity.
  - destruct (Pydantic.validate_field f ms) as [e|v];
      destruct (Pydantic.validate_fields fs ms) as [es|r]; try discriminate H.
    inversion H; subst. cbn. f_equal. apply IH. reflexivity.
Qed.

(** X15. Only an absent or empty content is replaced by the text of the
    empty object.  A content that is not empty but made of JSON whitespace
    only is validated as it is: for a class declared by its fields the call
    raises a validation error of type [json_invalid], after printing the line
    that carries that content. *)
Theorem generate_structured_whitespace_content
    sp up t st title schema fields response choice rest message c :
  OpenAI.create (client (self st))
    (generate_structured_kwargs (self st) sp up
       (Pydantic.BaseModel title schema fields) t)
  = Return response ->
  OpenAI.choices response = Some (choice :: rest) ->
  OpenAI.message choice = Some message ->
  OpenAI.content message = Some c ->
  c <> [] -> forallb Pydantic.is_ws c = true ->
  generate_structured sp up (Pydantic.BaseModel title schema fields) t st
  = (Raise (ValidationError title [{| loc := []; type_ := lit "json_invalid" |}]),
     printed (lit "Loom Validation Error: Model output did not match schema."
                ++ nl ++ lit "Output: " ++ c)
       (sent (generate_structured_kwargs (self st) sp up
                (Pydantic.BaseModel title schema fields) t) st)).
Proof.
  intros Hc Hch Hm Hcontent Hne Hws.
  unfold generate_structured, try_except, bind, get_self,
    chat_completions_create.
  rewrite Hc. cbn [fst snd]. rewrite Hch. cbn [index0 ret]. rewrite Hm.
  cbn [getattr_opt ret]. rewrite Hcontent.
  destruct c as [|c0 c']; [contradiction|].
  cbn [str_or model_validate_json Pydantic.BaseModel lift].
  unfold Pydantic.validate_json. rewrite (json_loads_all_ws _ Hws).
  reflexivity.
Qed.

(** X16. An instance returned by [generate_structured] for a class declared
    by its fields has exactly the declared fields, in their order: members of
    the reply that the class does not declare never reach the caller. *)
Theorem generate_structured_instance_fields
    sp up t st title schema fields inst st' :
  generate_structured sp up (Pydantic.BaseModel title schema fields) t st
  = (Return inst, st') ->
  List.map fst inst = List.map Pydantic.name fields.
Proof.
  intros Hg. apply generate_structured_returns in Hg.
  destruct Hg as (_ & response & choice & rest & message & _ & _ & _ & Hv).
  cbn [model_validate_json Pydantic.BaseModel] in Hv.
  unfold Pydantic.validate_json in Hv.
  destruct (Pydantic.json_loads _) as [[| | | | |ms]|]; try discriminate Hv.
  destruct (Pydantic.validate_fields fields ms) as [es|i] eqn:E;
    [discriminate Hv|].
  inversion Hv; subst. exact (validate_fields_names fields ms inst E).
Qed.

(** ** Everything a call can raise *)

Lemma validate_dict_str_int_errors l u es :
  validate_dict_str_int l u = inl es -> es <> [].
Proof.
  revert es. induction u as [|[k [z|]] u IH]; cbn [validate_dict_str_int];
    intros es H; try discriminate H.
  - destruct (validate_dict_str_int l u) as [eu|u']; [|discriminate H].
    inversion H; subst. cbn. apply IH. reflexivity.
  - destruct (validate_dict_str_int l u); inversion H; discriminate.
Qed.

Lemma new_LoomResponse_raises_errors c v u mdl fr e :
  new_LoomResponse c v u mdl fr = Raise e ->
  exists es, e = ValidationError (lit "LoomResponse") es /\ es <> [].
Proof.
  unfold new_LoomResponse. intros H.
  pose proof (validate_dict_str_int_errors [lit "token_usage"] u) as Hu.
  destruct (validate_dict_str_int [lit "token_usage"] u) as [eu|u'].
  - specialize (Hu eu eq_refl).
    destruct v as [|v]; [|destruct (validate_optional_str _ v)];
      destruct (validate_str _ mdl);
      (destruct fr as [|fr]; [|destruct (validate_str _ fr)]);
      inversion H; eexists; (split; [reflexivity|]);
      intros E; apply Hu; (destruct eu as [|x eu']; [reflexivity|]); exfalso;
      apply (f_equal (@List.length ErrorDetails)) in E;
      rewrite ?length_app in E; cbn in E; lia.
  - clear Hu.
    destruct v as [|[]]; destruct mdl; (destruct fr as [|[]]);
      cbn in H; try discriminate H; inversion H;
      eexists; (split; [reflexivity|]); cbn; discriminate.
Qed.

Lemma generate_rejected_message sp up t mt er st :
  preconditions sp up t = false ->
  exists msg,
    generate sp up t mt er st = (Raise (ValueError msg), st)
    /\ startswith (lit "Pre-condition failed: ") msg = true.
Proof.
  unfold preconditions, generate. intros H.
  destruct (str_truthy (strip sp)); cbn [negb andb] in *;
    [|eexists; split; reflexivity].
  destruct (str_truthy (strip up)); cbn [negb andb] in *;
    [|eexists; split; reflexivity].
  rewrite H. cbn [negb]. eexists. split; [reflexivity|].
  change (lit "Pre-condition failed: temperature ")
    with (lit "Pre-condition failed: " ++ lit "temperature ").
  rewrite <- app_assoc. apply startswith_app.
Qed.

(** X17. Everything [generate] can raise, on replies each of whose
    attributes holds a value of its declared type or [None].  A failing call
    is in exactly one of these situations: a check failed, the exception is a
    [ValueError] whose message starts with [Pre-condition failed:] and the
    state is as it was; or the transport raised and the exception is the
    transport's; or the transport returned a reply and the exception is
    [TypeError] (the list of choices is [None]), [IndexError] (the list is
    empty), [AttributeError] on [prompt_tokens] (no usage report),
    [AttributeError] on [content] (the first choice has no message), or a
    validation error of [LoomResponse] with at least one entry. *)
Theorem generate_raise_inversion sp up t mt er st e st' :
  generate sp up t mt er st = (Raise e, st') ->
  (preconditions sp up t = false /\ st' = st
   /\ exists msg, e = ValueError msg
                  /\ startswith (lit "Pre-condition failed: ") msg = true)
  \/ (preconditions sp up t = true
      /\ OpenAI.create (client (self st)) (generate_kwargs (self st) sp up t mt er)
         = Raise e)
  \/ (preconditions sp up t = true
      /\ st' = sent (generate_kwargs (self st) sp up t mt er) st
      /\ exists response,
           OpenAI.create (client (self st))
             (generate_kwargs (self st) sp up t mt er) = Return response
           /\ ((OpenAI.choices response = None
                /\ e = OtherException (lit "TypeError")
                         (lit "'NoneType' object is not subscriptable"))
               \/ (OpenAI.choices response = Some []
                   /\ e = IndexError (lit "list index out of range"))
               \/ (exists choice rest,
                     OpenAI.choices response = Some (choice :: rest)
                     /\ ((OpenAI.usage response = None
                          /\ e = AttributeError
                                   (lit "'NoneType' object has no attribute 'prompt_tokens'"))
                         \/ (OpenAI.usage response <> None
                             /\ OpenAI.message choice = None
                             /\ e = AttributeError
                                      (lit "'NoneType' object has no attribute 'content'"))
                         \/ (OpenAI.usage response <> None
                             /\ OpenAI.message choice <> None
                             /\ exists es,
                                  e = ValidationError (lit "LoomResponse") es
                                  /\ es <> []))))).
Proof.
  intros Hg.
  destruct (preconditions sp up t) eqn:Hp.
  - right.
    rewrite generate_accepted in Hg by assumption.
    unfold try_except, bind, get_self, chat_completions_create in Hg.
    destruct (OpenAI.create _ _) as [response|e0]; cbn [fst snd] in Hg.
    + right. split; [reflexivity|].
      destruct (OpenAI.choices response) as [[|choice rest]|] eqn:Hch;
        cbn in Hg.
      { inversion Hg; subst. split; [reflexivity|].
        exists response. split; [reflexivity|]. right. left. auto. }
      2:{ inversion Hg; subst. split; [reflexivity|].
          exists response. split; [reflexivity|]. left. auto. }
      destruct (OpenAI.usage response) as [u|] eqn:Hu; cbn in Hg.
      2:{ inversion Hg; subst. split; [reflexivity|].
          exists response. split; [reflexivity|]. right. right.
          exists choice, rest. split; [exact Hch|]. left.
          split; [exact Hu|]. vm_compute. reflexivity. }
      destruct (OpenAI.message choice) as [message|] eqn:Hm; cbn in Hg.
      2:{ inversion Hg; subst. split; [reflexivity|].
          exists response. split; [reflexivity|]. right. right.
          exists choice, rest. split; [exact Hch|]. right. left.
          split; [rewrite Hu; discriminate|]. split; [exact Hm|].
          vm_compute. reflexivity. }
      unfold lift in Hg.
      destruct (new_LoomResponse _ _ _ _ _) as [r|e1] eqn:E; [discriminate Hg|].
      destruct (new_LoomResponse_raises_errors _ _ _ _ _ _ E) as (es & -> & Hes).
      cbn in Hg. inversion Hg; subst. split; [reflexivity|].
      exists response. split; [reflexivity|]. right. right.
      exists choice, rest. split; [exact Hch|]. right. right.
      split; [rewrite Hu; discriminate|]. split; [rewrite Hm; discriminate|].
      eauto.
    + left. split; [reflexivity|].
      destruct e0; cbn in Hg; inversion Hg; reflexivity.
  - left. split; [reflexivity|].
    destruct (generate_rejected_message sp up t mt er st Hp) as (msg & Hr & Hm).
    rewrite Hr in Hg. inversion Hg; subst. eauto.
Qed.

(** X18. Everything [generate_structured] can raise, on replies each of
    whose attributes holds a value of its declared type or [None]: the
    exception of the transport when that is not a validation error, an
    [UnboundLocalError] when it is one, [TypeError] when the list of choices
    of the reply is [None], [IndexError] when the list is empty,
    [AttributeError] on [content] when the first choice has no message, and
    otherwise the exception the validation of the content raised. *)
Theorem generate_structured_raise_inversion sp up rm t st e st' :
  generate_structured sp up rm t st = (Raise e, st') ->
  (OpenAI.create (client (self st)) (generate_structured_kwargs (self st) sp up rm t)
   = Raise e
   /\ forall title es, e <> ValidationError title es)
  \/ (exists title es msg,
        OpenAI.create (client (self st))
          (generate_structured_kwargs (self st) sp up rm t)
        = Raise (ValidationError title es)
        /\ e = UnboundLocalError msg)
  \/ (exists response,
        OpenAI.create (client (self st))
          (generate_structured_kwargs (self st) sp up rm t) = Return response
        /\ ((OpenAI.choices response = None
             /\ e = OtherException (lit "TypeError")
                      (lit "'NoneType' object is not subscriptable"))
            \/ (OpenAI.choices response = Some []
                /\ e = IndexError (lit "list index out of range"))
            \/ exists choice rest,
                 OpenAI.choices response = Some (choice :: rest)
                 /\ ((OpenAI.message choice = None
                      /\ e = AttributeError
                               (lit "'NoneType' object has no attribute 'content'"))
                     \/ exists message,
                          OpenAI.message choice = Some message
                          /\ model_validate_json rm
                               (str_or (OpenAI.content message) (lit "{}"))
                             = Raise e))).
Proof.
  unfold generate_structured, try_except, bind, get_self,
    chat_completions_create.
  destruct (OpenAI.create _ _) as [response|e0]; cbn [fst snd].
  - intros Hg. right. right. exists response. split; [reflexivity|].
    destruct (OpenAI.choices response) as [[|choice rest]|]; cbn in Hg.
    { inversion Hg; subst. right. left. auto. }
    2:{ inversion Hg; subst. left. auto. }
    right. right. exists choice, rest. split; [reflexivity|].
    destruct (OpenAI.message choice) as [message|]; cbn in Hg.
    2:{ inversion Hg; subst. left. split; [reflexivity|].
        vm_compute. reflexivity. }
    right. exists message. split; [reflexivity|].
    unfold lift in Hg.
    destruct (model_validate_json rm _) as [v|e1]; [discriminate Hg|].
    destruct e1; cbn in Hg; inversion Hg; reflexivity.
  - destruct e0; cbn; intros Hg; inversion Hg; subst;
      try (left; split; [reflexivity | intros; discriminate]).
    right. left. eauto.
Qed.

(** ** Replies that lack the list of choices or the message *)

(** X20. A reply whose list of choices is [None] makes [generate] raise
    [TypeError] at [response.choices[0]]; a reply with a usage report whose
    first choice has no message makes it raise [AttributeError] on [content],
    the reasoning of the missing message having been read as [None] without
    an error.  Neither is caught, nothing is printed, and the request was
    sent once. *)
Theorem generate_reply_without_choice_list_or_message
    sp up t mt er st response :
  preconditions sp up t = true ->
  OpenAI.create (client (self st)) (generate_kwargs (self st) sp up t mt er)
  = Return response ->
  (OpenAI.choices response = None ->
   generate sp up t mt er st
   = (Raise (OtherException (lit "TypeError")
               (lit "'NoneType' object is not subscriptable")),
      sent (generate_kwargs (self st) sp up t mt er) st))
  /\
  (forall choice rest u,
   OpenAI.choices response = Some (choice :: rest) ->
   OpenAI.usage response = Some u ->
   OpenAI.message choice = None ->
   generate sp up t mt er st
   = (Raise (AttributeError
               (lit "'NoneType' object has no attribute 'content'")),
      sent (generate_kwargs (self st) sp up t mt er) st)).
Proof.
  intros Hp Hc. rewrite generate_accepted by assumption.
  unfold try_except, bind, get_self, chat_completions_create.
  rewrite Hc. cbn [fst snd]. split.
  - intros ->. reflexivity.
  - intros choice rest u -> Hu Hm.
    rewrite Hu. cbn. rewrite Hm. vm_compute. reflexivity.
Qed.

(** X21. In [generate_structured] the reply is read inside the [try] block,
    whose handlers take no exception of these kinds: a reply whose list of
    choices is [None] raises [TypeError], one whose list is empty raises
    [IndexError], and one whose first choice has no message raises
    [AttributeError] on [content].  Nothing is validated or printed, and the
    request was sent once. *)
Theorem generate_structured_reply_without_content_path
    sp up rm t st response :
  OpenAI.create (client (self st)) (generate_structured_kwargs (self st) sp up rm t)
  = Return response ->
  (OpenAI.choices response = None ->
   generate_structured sp up rm t st
   = (Raise (OtherException (lit "TypeError")
               (lit "'NoneType' object is not subscriptable")),
      sent (generate_structured_kwargs (self st) sp up rm t) st))
  /\
  (OpenAI.choices response = Some [] ->
   generate_structured sp up rm t st
   = (Raise (IndexError (lit "list index out of range")),
      sent (generate_structured_kwargs (self st) sp up rm t) st))
  /\
  (forall choice rest,
   OpenAI.choices response = Some (choice :: rest) ->
   OpenAI.message choice = None ->
   generate_structured sp up rm t st
   = (Raise (AttributeError
               (lit "'NoneType' object has no attribute 'content'")),
      sent (generate_structured_kwargs (self st) sp up rm t) st)).
Proof.
  intros Hc.
  unfold generate_structured, try_except, bind, get_self,
    chat_completions_create.
  rewrite Hc. cbn [fst snd]. split; [|split].
  - intros ->. reflexivity.
  - intros ->. reflexivity.
  - intros choice rest -> Hm. cbn. rewrite Hm. reflexivity.
Qed.

End Client.

(** * The properties on the fixtures of the test suite *)

(** [test_successful_generation_structure] *)
Example test_successful_generation_structure :
  fst (generate Fixtures.float_repr (lit "System") (lit "User") 0.5 (-1) true
         Fixtures.answering)
  = Return {| content := lit "Threadrippers are powerful.";
              reasoning := None;
              token_usage := [ (lit "prompt_tokens", 10%Z);
                               (lit "completion_tokens", 5%Z);
                               (lit "total_tokens", 15%Z) ];
              model_used := lit "test-model";
              finish_reason := lit "stop" |}.
Proof. vm_compute. reflexivity. Qed.

(** [test_generation_with_reasoning] *)
Example test_generation_with_reasoning :
  exists r,
    fst (generate Fixtures.float_repr (lit "System") (lit "User") 0.5 (-1) true
           (Fixtures.start (Return Fixtures.reasoning_response)))
    = Return r
    /\ reasoning r = Some (lit "Thinking about the meaning of life...").
Proof. eexists. split; vm_compute; reflexivity. Qed.

(** [test_connection_error_handling], with what is printed. *)
Example test_connection_error_handling :
  generate Fixtures.float_repr (lit "System") (lit "User") 0.5 (-1) true
    Fixtures.unreachable
  = (Raise (APIConnectionError (lit "Connection error.")),
     printed (lit "Loom Connection Error: Could not reach http://fake-url")
       (sent (generate_kwargs (self Fixtures.unreachable) (lit "System")
                (lit "User") 0.5 (-1) true)
          Fixtures.unreachable)).
Proof. vm_compute. reflexivity. Qed.

(** C1 on [test_preconditions_raise_value_error]: an empty system prompt. *)
Lemma generate_rejects_blank_prompts_witness :
  (strip (lit "") = [] \/ strip (lit "Hello") = [])
  /\ exists (field : string) (msg : pystr),
       generate Fixtures.float_repr (lit "") (lit "Hello") 0.5 (-1) true
         Fixtures.answering
       = (Raise (ValueError msg), Fixtures.answering)
       /\ kind_of (ValueError msg) = InvalidArgument
       /\ contains (lit field) msg = true
       /\ ((field = "system_prompt"%string /\ strip (lit "") = [])
           \/ (field = "user_prompt"%string /\ strip (lit "Hello") = [])).
Proof.
  split.
  - left. reflexivity.
  - apply (generate_rejects_blank_prompts Fixtures.float_repr (lit "") (lit "Hello")).
    left. reflexivity.
Defined.

(** C2 on the code: called with a blank system prompt and a blank user
    prompt, [generate_structured] raises nothing; it sends its request and
    returns the instance validated from the reply. *)
Lemma generate_structured_blank_prompts_sent :
  generate_structured Fixtures.float_repr (lit "") (lit "   ") Fixtures.Note 0.5
    (Fixtures.start (Return Fixtures.response_without_content))
  = (Return [ (lit "title", PStr (lit "untitled")); (lit "body", PStr (lit "note")) ],
     sent (generate_structured_kwargs Fixtures.float_repr
             (Fixtures.loom (Return Fixtures.response_without_content))
             (lit "") (lit "   ") Fixtures.Note 0.5)
       (Fixtures.start (Return Fixtures.response_without_content))).
Proof. vm_compute. reflexivity. Qed.

(** C3 as stated fails: a reply whose usage report lacks a counter makes
    [generate] raise a validation error, and no line is printed. *)
Lemma generate_validation_failure_not_logged :
  fst (generate Fixtures.float_repr (lit "System") (lit "User") 0.5 (-1) true
         (Fixtures.start (Return Fixtures.response_without_total)))
  = Raise (ValidationError (lit "LoomResponse")
             [{| loc := [lit "token_usage"; lit "total_tokens"];
                 type_ := lit "int_type" |}])
  /\ ~ (exists line,
          stdout (snd (generate Fixtures.float_repr (lit "System") (lit "User")
                         0.5 (-1) true
                         (Fixtures.start (Return Fixtures.response_without_total))))
          = stdout (Fixtures.start (Return Fixtures.response_without_total))
              ++ [line]).
Proof.
  split.
  - vm_compute. reflexivity.
  - intros [line H]. vm_compute in H. discriminate H.
Qed.

(** C3 on [test_connection_error_handling]: the exception of the transport
    comes back, after one request and one printed line. *)
Lemma generate_failure_handling_witness :
  generate Fixtures.float_repr (lit "System") (lit "User") 0.5 (-1) true
    Fixtures.unreachable
  = (Raise (APIConnectionError (lit "Connection error.")),
     snd (generate Fixtures.float_repr (lit "System") (lit "User") 0.5 (-1) true
            Fixtures.unreachable))
  /\ wire (snd (generate Fixtures.float_repr (lit "System") (lit "User") 0.5
                  (-1) true Fixtures.unreachable))
     = [generate_kwargs (self Fixtures.unreachable) (lit "System") (lit "User")
          0.5 (-1) true]
  /\ stdout (snd (generate Fixtures.float_repr (lit "System") (lit "User") 0.5
                    (-1) true Fixtures.unreachable))
     = [lit "Loom Connection Error: Could not reach http://fake-url"].
Proof.
  assert (E : generate Fixtures.float_repr (lit "System") (lit "User") 0.5 (-1)
                true Fixtures.unreachable
              = (Raise (APIConnectionError (lit "Connection error.")),
                 snd (generate Fixtures.float_repr (lit "System") (lit "User")
                        0.5 (-1) true Fixtures.unreachable))).
  { vm_compute. reflexivity. }
  destruct (generate_failure_handling Fixtures.float_repr _ _ _ _ _ _ _ _ E
              (or_introl eq_refl)) as (Hw & _ & Hc & _).
  destruct (Hc eq_refl) as [_ Hs].
  split; [exact E|]. split; [exact Hw | exact Hs].
Defined.

(** C4 on the code: the reply of the test, with the finish reason left out,
    makes [generate] raise a validation error on [finish_reason]; no result
    with finish reason [unknown] is returned. *)
Lemma generate_finish_reason_omitted :
  fst (generate Fixtures.float_repr (lit "System") (lit "User") 0.5 (-1) true
         (Fixtures.start (Return Fixtures.response_without_finish_reason)))
  = Raise (ValidationError (lit "LoomResponse")
             [{| loc := [lit "finish_reason"]; type_ := lit "string_type" |}]).
Proof. vm_compute. reflexivity. Qed.

(** C5 on [test_preconditions_raise_value_error]: the temperature [-1.0] is
    refused and named in the message; the endpoint [2.0] is let through. *)
Lemma generate_temperature_range_witness :
  strip (lit "Valid") <> [] /\ strip (lit "Valid") <> []
  /\ (exists msg,
         generate Fixtures.float_repr (lit "Valid") (lit "Valid") (-1) (-1) true
           Fixtures.answering
         = (Raise (ValueError msg), Fixtures.answering)
         /\ kind_of (ValueError msg) = InvalidArgument
         /\ contains (Fixtures.float_repr (-1)) msg = true)
  /\ wire (snd (generate Fixtures.float_repr (lit "Valid") (lit "Valid") 2 (-1)
                  true Fixtures.answering))
     = wire Fixtures.answering
       ++ [generate_kwargs (self Fixtures.answering) (lit "Valid") (lit "Valid")
             2 (-1) true].
Proof.
  assert (Hs : strip (lit "Valid") <> []) by (vm_compute; discriminate).
  split; [exact Hs|]. split; [exact Hs|]. split.
  - apply (generate_temperature_range Fixtures.float_repr (lit "Valid")
             (lit "Valid") (-1) (-1) true Fixtures.answering Hs Hs).
    left. reflexivity.
  - apply (generate_temperature_range Fixtures.float_repr (lit "Valid")
             (lit "Valid") 2 (-1) true Fixtures.answering Hs Hs).
    split; reflexivity.
Defined.

(** C6 on the call of [test_real_connection_to_lenny], with [max_tokens=100]. *)
Lemma generate_max_tokens_on_wire_witness :
  preconditions (lit "Health Check") (lit "Reply with the single word 'OK'.") 0.5
  = true
  /\ exists req,
       wire (snd (generate Fixtures.float_repr (lit "Health Check")
                    (lit "Reply with the single word 'OK'.") 0.5 100 true
                    Fixtures.answering))
       = wire Fixtures.answering ++ [req]
       /\ ((100 <= 0)%Z -> OpenAI.kw_max_tokens req = Given None)
       /\ ((0 < 100)%Z -> OpenAI.kw_max_tokens req = Given (Some 100%Z)).
Proof.
  split; [reflexivity|].
  apply (generate_max_tokens_on_wire Fixtures.float_repr). reflexivity.
Defined.

(** The reasoning of a reply that carries it in [model_extra] only, and of
    one that carries a text in both places, by evaluation. *)
Example test_generation_with_extra_reasoning :
  exists r,
    fst (generate Fixtures.float_repr (lit "System") (lit "User") 0.5 (-1) true
           (Fixtures.start (Return Fixtures.response_with_extra_reasoning)))
    = Return r
    /\ reasoning r = Some (lit "Thinking about the meaning of life...").
Proof. eexists. split; vm_compute; reflexivity. Qed.

Example test_generation_with_both_reasonings :
  exists r,
    fst (generate Fixtures.float_repr (lit "System") (lit "User") 0.5 (-1) true
           (Fixtures.start (Return Fixtures.response_with_both_reasonings)))
    = Return r
    /\ reasoning r = Some (lit "Thinking about the meaning of life...").
Proof. eexists. split; vm_compute; reflexivity. Qed.

(** C7 on a reply with a text in both places, on one with the text in
    [model_extra] only, and on [test_successful_generation_structure], which
    has no reasoning anywhere. *)
Lemma generate_reasoning_witness :
  preconditions (lit "System") (lit "User") 0.5 = true
  /\ (exists r,
        generate Fixtures.float_repr (lit "System") (lit "User") 0.5 (-1) true
          (Fixtures.start (Return Fixtures.response_with_both_reasonings))
        = (Return r,
           sent (generate_kwargs
                   (self (Fixtures.start
                            (Return Fixtures.response_with_both_reasonings)))
                   (lit "System") (lit "User") 0.5 (-1) true)
             (Fixtures.start (Return Fixtures.response_with_both_reasonings)))
        /\ reasoning r = Some (lit "Thinking about the meaning of life..."))
  /\ (exists r,
        generate Fixtures.float_repr (lit "System") (lit "User") 0.5 (-1) true
          (Fixtures.start (Return Fixtures.response_with_extra_reasoning))
        = (Return r,
           sent (generate_kwargs
                   (self (Fixtures.start
                            (Return Fixtures.response_with_extra_reasoning)))
                   (lit "System") (lit "User") 0.5 (-1) true)
             (Fixtures.start (Return Fixtures.response_with_extra_reasoning)))
        /\ reasoning r = Some (lit "Thinking about the meaning of life..."))
  /\ (exists r,
        generate Fixtures.float_repr (lit "System") (lit "User") 0.5 (-1) true
          Fixtures.answering
        = (Return r,
           sent (generate_kwargs (self Fixtures.answering) (lit "System")
                   (lit "User") 0.5 (-1) true) Fixtures.answering)
        /\ reasoning r = None).
Proof.
  split; [reflexivity|]. split; [|split].
  - refine (proj1 (generate_reasoning Fixtures.float_repr (lit "System")
              (lit "User") 0.5 (-1) true
              (Fixtures.start (Return Fixtures.response_with_both_reasonings))
              {| OpenAI.content := Some (lit "42");
                 OpenAI.reasoning_content :=
                   Some (PStr (lit "Thinking about the meaning of life..."));
                 OpenAI.model_extra :=
                   Some [ (lit "reasoning_content",
                           PStr (lit "Another thought.")) ] |}
              (lit "stop") [] 10 5 15 [] (lit "gpt-oss-120b") eq_refl eq_refl)
              (lit "Thinking about the meaning of life...") eq_refl _).
    discriminate.
  - refine (proj1 (proj2 (generate_reasoning Fixtures.float_repr (lit "System")
              (lit "User") 0.5 (-1) true
              (Fixtures.start (Return Fixtures.response_with_extra_reasoning))
              {| OpenAI.content := Some (lit "42");
                 OpenAI.reasoning_content := None;
                 OpenAI.model_extra :=
                   Some [ (lit "annotations", PList []);
                          (lit "reasoning_content",
                           PStr (lit "Thinking about the meaning of life...")) ] |}
              (lit "stop") [] 10 5 15 [] (lit "gpt-oss-120b") eq_refl eq_refl))
              [ (lit "annotations", PList []) ] []
              (lit "Thinking about the meaning of life...") _ eq_refl _).
    + left. reflexivity.
    + intros [E|[]]. vm_compute in E. discriminate E.
  - refine (proj2 (proj2 (generate_reasoning Fixtures.float_repr (lit "System")
              (lit "User") 0.5 (-1) true Fixtures.answering
              {| OpenAI.content := Some (lit "Threadrippers are powerful.");
                 OpenAI.reasoning_content := Some PNone;
                 OpenAI.model_extra := Some [] |}
              (lit "stop") [] 10 5 15 [] (lit "test-model") eq_refl eq_refl)) _ _).
    + right. reflexivity.
    + right. exists []. split; [reflexivity|]. left. intros [].
Defined.

(** C8 on [test_successful_generation_structure]. *)
Lemma generate_token_usage_witness :
  generate Fixtures.float_repr (lit "System") (lit "User") 0.5 (-1) true
    Fixtures.answering
  = (Return {| content := lit "Threadrippers are powerful.";
               reasoning := None;
               token_usage := [ (lit "prompt_tokens", 10%Z);
                                (lit "completion_tokens", 5%Z);
                                (lit "total_tokens", 15%Z) ];
               model_used := lit "test-model";
               finish_reason := lit "stop" |},
     sent (generate_kwargs (self Fixtures.answering) (lit "System") (lit "User")
             0.5 (-1) true) Fixtures.answering).
Proof.
  exact (generate_token_usage Fixtures.float_repr (lit "System") (lit "User") 0.5
           (-1) true Fixtures.answering
           {| OpenAI.content := Some (lit "Threadrippers are powerful.");
              OpenAI.reasoning_content := Some PNone;
              OpenAI.model_extra := Some [] |}
           (lit "stop") [] 10 5 15 [] (lit "test-model") eq_refl eq_refl eq_refl).
Defined.

(** C9: a second call, made in the state the first call left, ends as the
    first. *)
Lemma generate_deterministic_witness :
  fst (generate Fixtures.float_repr (lit "System") (lit "User") 0.5 (-1) true
         Fixtures.answering)
  = fst (generate Fixtures.float_repr (lit "System") (lit "User") 0.5 (-1) true
           (snd (generate Fixtures.float_repr (lit "System") (lit "User") 0.5
                   (-1) true Fixtures.answering))).
Proof.
  apply (generate_deterministic Fixtures.float_repr); reflexivity.
Defined.

(** C10 on a class with a required field and a reply without content. *)
Lemma generate_structured_empty_content_witness :
  fst (generate_structured Fixtures.float_repr (lit "Extract.") (lit "text")
         Fixtures.Cpu 0.5 (Fixtures.start (Return Fixtures.response_without_content)))
  = model_validate_json Fixtures.Cpu (lit "{}")
  /\ exists es,
       fst (generate_structured Fixtures.float_repr (lit "Extract.") (lit "text")
              Fixtures.Cpu 0.5
              (Fixtures.start (Return Fixtures.response_without_content)))
       = Raise (ValidationError (lit "Cpu") es)
       /\ es = [{| loc := [lit "cpu_name"]; type_ := lit "missing" |}].
Proof.
  destruct (generate_structured_empty_content Fixtures.float_repr (lit "Extract.")
              (lit "text") Fixtures.Cpu 0.5
              (Fixtures.start (Return Fixtures.response_without_content))
              Fixtures.response_without_content
              {| OpenAI.content := None; OpenAI.reasoning_content := None;
                 OpenAI.model_extra := Some [] |}
              (Some (lit "stop")) [] eq_refl eq_refl (or_introl eq_refl))
    as (H1 & _ & H3).
  split; [exact H1|].
  destruct (H3 _ _ _ eq_refl) as (es & He & Hes & _).
  - eexists. split; [left; reflexivity | reflexivity].
  - exists es. split; [exact He | exact Hes].
Defined.

(** With defaults for every field, the same reply gives the defaults. *)
Example generate_structured_defaults :
  fst (generate_structured Fixtures.float_repr (lit "Extract.") (lit "text")
         Fixtures.Note 0.5 (Fixtures.start (Return Fixtures.response_without_content)))
  = Return [ (lit "title", PStr (lit "untitled")); (lit "body", PStr (lit "note")) ].
Proof. vm_compute. reflexivity. Qed.

(** * The further properties on the fixtures *)

(** X1 on [test_successful_generation_structure]. *)
Lemma generate_return_inversion_witness :
  generate Fixtures.float_repr (lit "System") (lit "User") 0.5 (-1) true
    Fixtures.answering
  = (Return Fixtures.mock_result,
     sent (generate_kwargs (self Fixtures.answering) (lit "System") (lit "User")
             0.5 (-1) true) Fixtures.answering)
  /\ preconditions (lit "System") (lit "User") 0.5 = true
  /\ stdout (sent (generate_kwargs (self Fixtures.answering) (lit "System")
                     (lit "User") 0.5 (-1) true) Fixtures.answering)
     = stdout Fixtures.answering.
Proof.
  assert (E : generate Fixtures.float_repr (lit "System") (lit "User") 0.5 (-1)
                true Fixtures.answering
              = (Return Fixtures.mock_result,
                 sent (generate_kwargs (self Fixtures.answering) (lit "System")
                         (lit "User") 0.5 (-1) true) Fixtures.answering)).
  { vm_compute. reflexivity. }
  destruct (generate_return_inversion Fixtures.float_repr _ _ _ _ _ _ _ _ E)
    as (Hp & _ & _ & Hs & _).
  split; [exact E|]. split; [exact Hp | exact Hs].
Defined.

(** X2 on [test_connection_error_handling]. *)
Lemma generate_propagates_transport_exception_witness :
  preconditions (lit "System") (lit "User") 0.5 = true
  /\ fst (generate Fixtures.float_repr (lit "System") (lit "User") 0.5 (-1) true
            Fixtures.unreachable)
     = Raise (APIConnectionError (lit "Connection error.")).
Proof.
  split; [reflexivity|].
  apply (generate_propagates_transport_exception Fixtures.float_repr
           (lit "System") (lit "User") 0.5 (-1) true Fixtures.unreachable
           (APIConnectionError (lit "Connection error."))); reflexivity.
Defined.

(** X3 on a reply without choices. *)
Lemma generate_reply_without_choices_or_usage_witness :
  preconditions (lit "System") (lit "User") 0.5 = true
  /\ generate Fixtures.float_repr (lit "System") (lit "User") 0.5 (-1) true
       (Fixtures.start (Return Fixtures.response_without_choices))
     = (Raise (IndexError (lit "list index out of range")),
        sent (generate_kwargs
                (self (Fixtures.start (Return Fixtures.response_without_choices)))
                (lit "System") (lit "User") 0.5 (-1) true)
          (Fixtures.start (Return Fixtures.response_without_choices))).
Proof.
  split; [reflexivity|].
  apply (proj1 (generate_reply_without_choices_or_usage Fixtures.float_repr
                  (lit "System") (lit "User") 0.5 (-1) true
                  (Fixtures.start (Return Fixtures.response_without_choices))
                  Fixtures.response_without_choices eq_refl eq_refl)).
  reflexivity.
Defined.

(** X5 on a reply without content. *)
Lemma generate_empty_content_witness :
  preconditions (lit "System") (lit "User") 0.5 = true
  /\ exists r,
       generate Fixtures.float_repr (lit "System") (lit "User") 0.5 (-1) true
         (Fixtures.start (Return Fixtures.response_without_content))
       = (Return r,
          sent (generate_kwargs
                  (self (Fixtures.start (Return Fixtures.response_without_content)))
                  (lit "System") (lit "User") 0.5 (-1) true)
            (Fixtures.start (Return Fixtures.response_without_content)))
       /\ content r = [] /\ finish_reason r = lit "stop".
Proof.
  split; [reflexivity|].
  apply (generate_empty_content Fixtures.float_repr (lit "System") (lit "User")
           0.5 (-1) true
           (Fixtures.start (Return Fixtures.response_without_content))
           {| OpenAI.content := None; OpenAI.reasoning_content := None;
              OpenAI.model_extra := Some [] |}
           (lit "stop") [] 10 5 15 [] (lit "test-model")
           eq_refl eq_refl eq_refl (or_introl eq_refl)).
Defined.

(** X7 on two results of the test's call: the total is 5 + 5. *)
Lemma total_generated_tokens_of_generate_witness :
  exists counts,
    Forall2 (fun r c => In (lit "completion_tokens", c) (token_usage r))
      [Fixtures.mock_result; Fixtures.mock_result] counts
    /\ total_generated_tokens [Fixtures.mock_result; Fixtures.mock_result]
       = Return (fold_right Z.add 0%Z counts).
Proof.
  apply (total_generated_tokens_of_generate Fixtures.float_repr).
  assert (H : exists sp up t mt er st st',
             generate Fixtures.float_repr sp up t mt er st
             = (Return Fixtures.mock_result, st')).
  { exists (lit "System"), (lit "User"), 0.5%float, (-1)%Z, true,
      Fixtures.answering.
    eexists. vm_compute. reflexivity. }
  repeat constructor; exact H.
Defined.

(** X8 on a class with defaults and a reply without content. *)
Lemma generate_structured_return_inversion_witness :
  generate_structured Fixtures.float_repr (lit "Extract.") (lit "text")
    Fixtures.Note 0.5 (Fixtures.start (Return Fixtures.response_without_content))
  = (Return [ (lit "title", PStr (lit "untitled")); (lit "body", PStr (lit "note")) ],
     sent (generate_structured_kwargs Fixtures.float_repr
             (Fixtures.loom (Return Fixtures.response_without_content))
             (lit "Extract.") (lit "text") Fixtures.Note 0.5)
       (Fixtures.start (Return Fixtures.response_without_content)))
  /\ stdout (sent (generate_structured_kwargs Fixtures.float_repr
                     (Fixtures.loom (Return Fixtures.response_without_content))
                     (lit "Extract.") (lit "text") Fixtures.Note 0.5)
               (Fixtures.start (Return Fixtures.response_without_content)))
     = stdout (Fixtures.start (Return Fixtures.response_without_content)).
Proof.
  assert (E : generate_structured Fixtures.float_repr (lit "Extract.") (lit "text")
                Fixtures.Note 0.5
                (Fixtures.start (Return Fixtures.response_without_content))
              = (Return [ (lit "title", PStr (lit "untitled"));
                          (lit "body", PStr (lit "note")) ],
                 sent (generate_structured_kwargs Fixtures.float_repr
                         (Fixtures.loom (Return Fixtures.response_without_content))
                         (lit "Extract.") (lit "text") Fixtures.Note 0.5)
                   (Fixtures.start (Return Fixtures.response_without_content)))).
  { vm_compute. reflexivity. }
  destruct (generate_structured_return_inversion Fixtures.float_repr
              _ _ _ _ _ _ _ E) as (_ & _ & Hs & _).
  split; [exact E | exact Hs].
Defined.

(** X9 on a class with a required field and a reply without content. *)
Lemma generate_structured_validation_failure_witness :
  stdout (snd (generate_structured Fixtures.float_repr (lit "Extract.")
                 (lit "text") Fixtures.Cpu 0.5
                 (Fixtures.start (Return Fixtures.response_without_content))))
  = [lit "Loom Validation Error: Model output did not match schema."
       ++ nl ++ lit "Output: {}"].
Proof.
  rewrite (generate_structured_validation_failure Fixtures.float_repr
             (lit "Extract.") (lit "text") Fixtures.Cpu 0.5
             (Fixtures.start (Return Fixtures.response_without_content))
             Fixtures.response_without_content
             {| OpenAI.message :=
                  Some {| OpenAI.content := None;
                          OpenAI.reasoning_content := None;
                          OpenAI.model_extra := Some [] |};
                OpenAI.finish_reason := Some (lit "stop") |}
             []
             {| OpenAI.content := None; OpenAI.reasoning_content := None;
                OpenAI.model_extra := Some [] |}
             (lit "Cpu")
             [{| loc := [lit "cpu_name"]; type_ := lit "missing" |}]
             eq_refl eq_refl eq_refl eq_refl).
  reflexivity.
Defined.

(** X10 on a server that is down and on one that answers 503. *)
Lemma generate_structured_transport_failure_witness :
  generate_structured Fixtures.float_repr (lit "Extract.") (lit "text")
    Fixtures.Cpu 0.5 Fixtures.unreachable
  = (Raise (APIConnectionError (lit "Connection error.")),
     snd (generate_structured Fixtures.float_repr (lit "Extract.") (lit "text")
            Fixtures.Cpu 0.5 Fixtures.unreachable))
  /\ stdout (snd (generate_structured Fixtures.float_repr (lit "Extract.")
                    (lit "text") Fixtures.Cpu 0.5 Fixtures.unreachable))
     = []
  /\ stdout (snd (generate_structured Fixtures.float_repr (lit "Extract.")
                    (lit "text") Fixtures.Cpu 0.5 Fixtures.unavailable))
     = [lit "Loom Status Error: 503"].
Proof.
  destruct (generate_structured_transport_failure Fixtures.float_repr
              (lit "Extract.") (lit "text") Fixtures.Cpu 0.5 Fixtures.unreachable
              (APIConnectionError (lit "Connection error.")) eq_refl)
    as (H1 & _ & _ & H4).
  { intros title es H. discriminate H. }
  destruct (generate_structured_transport_failure Fixtures.float_repr
              (lit "Extract.") (lit "text") Fixtures.Cpu 0.5 Fixtures.unavailable
              (APIStatusError (lit "Service Unavailable") 503) eq_refl)
    as (_ & _ & H3 & _).
  { intros title es H. discriminate H. }
  split; [|split].
  - rewrite <- H1. apply surjective_pairing.
  - apply H4. discriminate.
  - exact (H3 _ _ eq_refl).
Defined.

(** X11 on a transport that raises a validation error. *)
Lemma generate_structured_unbound_content_witness :
  exists msg,
    fst (generate_structured Fixtures.float_repr (lit "Extract.") (lit "text")
           Fixtures.Cpu 0.5
           (Fixtures.start (Raise (ValidationError (lit "ChatCompletion") []))))
    = Raise (UnboundLocalError msg).
Proof.
  destruct (generate_structured_unbound_content Fixtures.float_repr
              (lit "Extract.") (lit "text") Fixtures.Cpu 0.5
              (Fixtures.start (Raise (ValidationError (lit "ChatCompletion") [])))
              (lit "ChatCompletion") [] eq_refl) as [msg [H _]].
  exists msg. rewrite H. reflexivity.
Defined.

(** X15 on a reply whose content is a line break. *)
Lemma generate_structured_whitespace_content_witness :
  fst (generate_structured Fixtures.float_repr (lit "Extract.") (lit "text")
         Fixtures.Note 0.5
         (Fixtures.start (Return Fixtures.response_with_blank_content)))
  = Raise (ValidationError (lit "Note")
             [{| loc := []; type_ := lit "json_invalid" |}]).
Proof.
  unfold Fixtures.Note.
  rewrite (generate_structured_whitespace_content Fixtures.float_repr
             (lit "Extract.") (lit "text") 0.5
             (Fixtures.start (Return Fixtures.response_with_blank_content))
             (lit "Note") _ _ Fixtures.response_with_blank_content
             _ [] _ [0x0A%N] eq_refl eq_refl eq_refl eq_refl).
  - reflexivity.
  - discriminate.
  - reflexivity.
Defined.

(** X16 on a class with defaults. *)
Lemma generate_structured_instance_fields_witness :
  generate_structured Fixtures.float_repr (lit "Extract.") (lit "text")
    Fixtures.Note 0.5 (Fixtures.start (Return Fixtures.response_without_content))
  = (Return [ (lit "title", PStr (lit "untitled")); (lit "body", PStr (lit "note")) ],
     sent (generate_structured_kwargs Fixtures.float_repr
             (Fixtures.loom (Return Fixtures.response_without_content))
             (lit "Extract.") (lit "text") Fixtures.Note 0.5)
       (Fixtures.start (Return Fixtures.response_without_content)))
  /\ List.map fst
       [ (lit "title", PStr (lit "untitled")); (lit "body", PStr (lit "note")) ]
     = [lit "title"; lit "body"].
Proof.
  assert (E : generate_structured Fixtures.float_repr (lit "Extract.") (lit "text")
                Fixtures.Note 0.5
                (Fixtures.start (Return Fixtures.response_without_content))
              = (Return [ (lit "title", PStr (lit "untitled"));
                          (lit "body", PStr (lit "note")) ],
                 sent (generate_structured_kwargs Fixtures.float_repr
                         (Fixtures.loom (Return Fixtures.response_without_content))
                         (lit "Extract.") (lit "text") Fixtures.Note 0.5)
                   (Fixtures.start (Return Fixtures.response_without_content)))).
  { vm_compute. reflexivity. }
  split; [exact E|].
  exact (generate_structured_instance_fields Fixtures.float_repr
           (lit "Extract.") (lit "text") 0.5
           (Fixtures.start (Return Fixtures.response_without_content))
           (lit "Note") _ _ _ _ E).
Defined.

(** X17 on an error payload: the request was accepted and sent, and the
    reply has no list of choices. *)
Lemma generate_raise_inversion_witness :
  generate Fixtures.float_repr (lit "System") (lit "User") 0.5 (-1) true
    (Fixtures.start (Return Fixtures.error_payload))
  = (Raise (OtherException (lit "TypeError")
              (lit "'NoneType' object is not subscriptable")),
     sent (generate_kwargs
             (self (Fixtures.start (Return Fixtures.error_payload)))
             (lit "System") (lit "User") 0.5 (-1) true)
       (Fixtures.start (Return Fixtures.error_payload)))
  /\ preconditions (lit "System") (lit "User") 0.5 = true.
Proof.
  assert (E : generate Fixtures.float_repr (lit "System") (lit "User") 0.5 (-1)
                true (Fixtures.start (Return Fixtures.error_payload))
              = (Raise (OtherException (lit "TypeError")
                          (lit "'NoneType' object is not subscriptable")),
                 sent (generate_kwargs
                         (self (Fixtures.start (Return Fixtures.error_payload)))
                         (lit "System") (lit "User") 0.5 (-1) true)
                   (Fixtures.start (Return Fixtures.error_payload)))).
  { vm_compute. reflexivity. }
  split; [exact E|].
  destruct (generate_raise_inversion Fixtures.float_repr _ _ _ _ _ _ _ _ E)
    as [(_ & _ & msg & Hm & _) | [(Hp & _) | (Hp & _)]].
  - discriminate Hm.
  - exact Hp.
  - exact Hp.
Defined.

(** X18 on an error payload: the transport returned a reply, and the reply
    has no list of choices. *)
Lemma generate_structured_raise_inversion_witness :
  generate_structured Fixtures.float_repr (lit "Extract.") (lit "text")
    Fixtures.Cpu 0.5 (Fixtures.start (Return Fixtures.error_payload))
  = (Raise (OtherException (lit "TypeError")
              (lit "'NoneType' object is not subscriptable")),
     sent (generate_structured_kwargs Fixtures.float_repr
             (self (Fixtures.start (Return Fixtures.error_payload)))
             (lit "Extract.") (lit "text") Fixtures.Cpu 0.5)
       (Fixtures.start (Return Fixtures.error_payload)))
  /\ exists response,
       OpenAI.create (client (self (Fixtures.start (Return Fixtures.error_payload))))
         (generate_structured_kwargs Fixtures.float_repr
            (self (Fixtures.start (Return Fixtures.error_payload)))
            (lit "Extract.") (lit "text") Fixtures.Cpu 0.5)
       = Return response
       /\ OpenAI.choices response = None.
Proof.
  assert (E : generate_structured Fixtures.float_repr (lit "Extract.")
                (lit "text") Fixtures.Cpu 0.5
                (Fixtures.start (Return Fixtures.error_payload))
              = (Raise (OtherException (lit "TypeError")
                          (lit "'NoneType' object is not subscriptable")),
                 sent (generate_structured_kwargs Fixtures.float_repr
                         (self (Fixtures.start (Return Fixtures.error_payload)))
                         (lit "Extract.") (lit "text") Fixtures.Cpu 0.5)
                   (Fixtures.start (Return Fixtures.error_payload)))).
  { vm_compute. reflexivity. }
  split; [exact E|].
  destruct (generate_structured_raise_inversion Fixtures.float_repr
              _ _ _ _ _ _ _ E)
    as [[H _] | [(title & es & msg & H & _)
                | (response & H & [[Hn _] | [[_ He] | (c & r & Hch & _)]])]].
  - discriminate H.
  - discriminate H.
  - exists response. split; [exact H | exact Hn].
  - discriminate He.
  - exfalso. cbn in H. inversion H; subst response. discriminate Hch.
Defined.

(** X20 on an error payload and on a reply whose choice has no message. *)
Lemma generate_reply_without_choice_list_or_message_witness :
  generate Fixtures.float_repr (lit "System") (lit "User") 0.5 (-1) true
    (Fixtures.start (Return Fixtures.error_payload))
  = (Raise (OtherException (lit "TypeError")
              (lit "'NoneType' object is not subscriptable")),
     sent (generate_kwargs
             (self (Fixtures.start (Return Fixtures.error_payload)))
             (lit "System") (lit "User") 0.5 (-1) true)
       (Fixtures.start (Return Fixtures.error_payload)))
  /\ generate Fixtures.float_repr (lit "System") (lit "User") 0.5 (-1) true
       (Fixtures.start (Return Fixtures.response_without_message))
     = (Raise (AttributeError
                 (lit "'NoneType' object has no attribute 'content'")),
        sent (generate_kwargs
                (self (Fixtures.start (Return Fixtures.response_without_message)))
                (lit "System") (lit "User") 0.5 (-1) true)
          (Fixtures.start (Return Fixtures.response_without_message))).
Proof.
  split.
  - exact (proj1 (generate_reply_without_choice_list_or_message
                    Fixtures.float_repr (lit "System") (lit "User") 0.5 (-1)
                    true (Fixtures.start (Return Fixtures.error_payload))
                    Fixtures.error_payload eq_refl eq_refl) eq_refl).
  - exact (proj2 (generate_reply_without_choice_list_or_message
                    Fixtures.float_repr (lit "System") (lit "User") 0.5 (-1)
                    true
                    (Fixtures.start (Return Fixtures.response_without_message))
                    Fixtures.response_without_message eq_refl eq_refl)
             {| OpenAI.message := None;
                OpenAI.finish_reason := Some (lit "stop") |} []
             {| OpenAI.prompt_tokens := Some 10%Z;
                OpenAI.completion_tokens := Some 5%Z;
                OpenAI.total_tokens := Some 15%Z;
                OpenAI.usage_extra := [] |}
             eq_refl eq_refl eq_refl).
Defined.

(** X21 on an error payload, on a reply without choices and on a reply whose
    choice has no message. *)
Lemma generate_structured_reply_without_content_path_witness :
  fst (generate_structured Fixtures.float_repr (lit "Extract.") (lit "text")
         Fixtures.Note 0.5 (Fixtures.start (Return Fixtures.error_payload)))
  = Raise (OtherException (lit "TypeError")
             (lit "'NoneType' object is not subscriptable"))
  /\ fst (generate_structured Fixtures.float_repr (lit "Extract.") (lit "text")
            Fixtures.Note 0.5
            (Fixtures.start (Return Fixtures.response_without_choices)))
     = Raise (IndexError (lit "list index out of range"))
  /\ fst (generate_structured Fixtures.float_repr (lit "Extract.") (lit "text")
            Fixtures.Note 0.5
            (Fixtures.start (Return Fixtures.response_without_message)))
     = Raise (AttributeError
                (lit "'NoneType' object has no attribute 'content'")).
Proof.
  split; [|split].
  - rewrite (proj1 (generate_structured_reply_without_content_path
                      Fixtures.float_repr (lit "Extract.") (lit "text")
                      Fixtures.Note 0.5
                      (Fixtures.start (Return Fixtures.error_payload))
                      Fixtures.error_payload eq_refl) eq_refl).
    reflexivity.
  - rewrite (proj1 (proj2 (generate_structured_reply_without_content_path
                      Fixtures.float_repr (lit "Extract.") (lit "text")
                      Fixtures.Note 0.5
                      (Fixtures.start (Return Fixtures.response_without_choices))
                      Fixtures.response_without_choices eq_refl)) eq_refl).
    reflexivity.
  - rewrite (proj2 (proj2 (generate_structured_reply_without_content_path
                      Fixtures.float_repr (lit "Extract.") (lit "text")
                      Fixtures.Note 0.5
                      (Fixtures.start (Return Fixtures.response_without_message))
                      Fixtures.response_without_message eq_refl))
               {| OpenAI.message := None;
                  OpenAI.finish_reason := Some (lit "stop") |} []
               eq_refl eq_refl).
    reflexivity.
Defined.
